(** * DataHaven demo dApp: the Buckets page and the application context

    A shallow embedding of the event handlers of [pages/Buckets.tsx]
    ([handleCreateBucket], [handleDeleteBucket], [loadBuckets],
    [getProgressSteps]) and of [context/AppContext.tsx] ([connectWallet],
    [disconnect], [connectMsp], [authenticateUser], [restoreSession]).

    Handlers are async functions.  Each one is embedded as a finite program
    tree whose nodes are the effects the handler performs, in source order:
    React state setters, browser calls, and the awaited service calls.  Two
    interpreters give the trees a meaning: [run] executes one invocation to
    completion, [advance] executes it up to its first [await], which is the
    grain at which the JavaScript event loop interleaves invocations. *)

From Stdlib Require Import List String Ascii NArith ZArith Bool Arith Lia.
Import ListNotations.

Set Implicit Arguments.

(** ** JavaScript strings *)

Module Js.

(** A JavaScript string is a sequence of UTF-16 code units. *)
Definition jsstring := list N.

(** ASCII literals of the source. *)
Definition lit (s : string) : jsstring :=
  map N_of_ascii (list_ascii_of_string s).

Fixpoint eqb (a b : jsstring) : bool :=
  match a, b with
  | [], [] => true
  | x :: a', y :: b' => N.eqb x y && eqb a' b'
  | _, _ => false
  end.

(** WhiteSpace and LineTerminator code points of ECMAScript, the ones
    [String.prototype.trim] strips. *)
Definition is_whitespace (c : N) : bool :=
  (N.leb 9 c && N.leb c 13)            (* TAB LF VT FF CR *)
  || N.eqb c 32                        (* SPACE *)
  || N.eqb c 160                       (* NO-BREAK SPACE *)
  || N.eqb c 5760                      (* U+1680 *)
  || (N.leb 8192 c && N.leb c 8202)    (* U+2000 .. U+200A *)
  || N.eqb c 8232 || N.eqb c 8233      (* U+2028, U+2029 *)
  || N.eqb c 8239                      (* U+202F *)
  || N.eqb c 8287                      (* U+205F *)
  || N.eqb c 12288                     (* U+3000 *)
  || N.eqb c 65279.                    (* U+FEFF *)

Fixpoint trimStart (s : jsstring) : jsstring :=
  match s with
  | c :: s' => if is_whitespace c then trimStart s' else s
  | [] => []
  end.

Definition trimEnd (s : jsstring) : jsstring := rev (trimStart (rev s)).

Definition trim (s : jsstring) : jsstring := trimEnd (trimStart s).

(** ToBoolean on a string: only the empty string is falsy. *)
Definition truthy (s : jsstring) : bool :=
  match s with [] => false | _ :: _ => true end.

(** ToBoolean on [string | null]. *)
Definition truthy_opt (s : option jsstring) : bool :=
  match s with None => false | Some s' => truthy s' end.

(** A thrown value: an [Error] instance with its [message], or anything
    else. *)
Inductive thrown : Type :=
| ErrorObj (message : jsstring)
| NotAnError.

(** [err instanceof Error ? err.message : fallback] *)
Definition message_or (fallback : jsstring) (err : thrown) : jsstring :=
  match err with
  | ErrorObj m => m
  | NotAnError => fallback
  end.

(** How a call settles: it returns (a promise fulfils) or it throws (a
    promise rejects). *)
Inductive result (A : Type) : Type :=
| Ok (a : A)
| Throw (err : thrown).
Arguments Throw {A} err.

Definition is_ok {A} (r : result A) : bool :=
  match r with Ok _ => true | Throw _ => false end.

(** Resolution of a relative index of [slice]: a negative index counts
    from the end, and both ends are clamped to the string. *)
Definition relative_index (len i : Z) : Z :=
  if (i <? 0)%Z then Z.max (len + i) 0 else Z.min i len.

(** [s.slice(start, end)]; [stop = None] is [s.slice(start)]. *)
Definition slice (s : jsstring) (start : Z) (stop : option Z) : jsstring :=
  let len := Z.of_nat (List.length s) in
  let from := relative_index len start in
  let to := match stop with Some e => relative_index len e | None => len end in
  firstn (Z.to_nat (Z.max (to - from) 0)) (skipn (Z.to_nat from) s).

(** [a || b] on strings. *)
Definition or_else (a b : jsstring) : jsstring := if truthy a then a else b.

Arguments lit : simpl never.

End Js.
Import Js.

(** ** Handler programs *)

(** The effects of a component: its events, what each one answers, and
    which of them are awaited (suspension points). *)
Record iface : Type := Iface {
  event : Type;
  reply : event -> Type;
  awaited : event -> bool;
  (** whether the answer is a normal return *)
  settled_ok : forall e : event, reply e -> bool
}.

Section Programs.

Variable I : iface.

Inductive prog (R : Type) : Type :=
| Ret (r : R)
| Vis (e : event I) (k : reply I e -> prog R).

Fixpoint bind {A B} (p : prog A) (f : A -> prog B) : prog B :=
  match p with
  | Ret a => f a
  | Vis e k => Vis e (fun x => bind (k x) f)
  end.

(** Statements either complete or throw. *)
Definition stmt (A : Type) : Type := prog (result A).

Definition ret {A} (a : A) : stmt A := Ret (Ok a).

(** Sequencing inside a block: a throw skips the rest. *)
Definition seq {A B} (p : stmt A) (f : A -> stmt B) : stmt B :=
  bind p (fun r => match r with Ok a => f a | Throw err => Ret (Throw err) end).

(** [try { body } catch (err) { handler err }] *)
Definition try_catch {A} (body : stmt A) (handler : thrown -> stmt A) : stmt A :=
  bind body (fun r => match r with Ok a => ret a | Throw err => handler err end).

(** [try { body } finally { cleanup }], for a [cleanup] without a
    [return]: the outcome of [body] stands unless [cleanup] throws. *)
Definition try_finally {A} (body : stmt A) (cleanup : stmt unit) : stmt A :=
  bind body (fun r => seq cleanup (fun _ => Ret r)).

(** ** Execution *)

Inductive entry : Type :=
| Did (e : event I)                  (* a synchronous effect *)
| Invoked (e : event I)              (* an awaited call is issued *)
| Settled (e : event I) (ok : bool). (* ... and has settled *)

Definition trace := list entry.

Variable world : Type.
Variable env : Type.
(** What an event does to the world and what it answers in a given
    environment. *)
Variable perform : env -> forall e : event I, world -> reply I e * world.

(** One invocation run to completion. *)
Fixpoint run {R} (v : env) (p : prog R) (w : world) : R * world * trace :=
  match p with
  | Ret r => (r, w, [])
  | Vis e k =>
      let (x, w1) := perform v e w in
      let '(r, w2, t) := run v (k x) w1 in
      (r, w2,
        (if awaited I e
         then [Invoked e; Settled e (settled_ok I e x)]
         else [Did e]) ++ t)
  end.

(** Where an invocation stands after a synchronous stretch. *)
Inductive task (R : Type) : Type :=
| Finished (r : R)
| Suspended (e : event I) (k : reply I e -> prog R).

(** Run up to the first [await], issuing the awaited call. *)
Fixpoint advance {R} (v : env) (p : prog R) (w : world)
    : task R * world * trace :=
  match p with
  | Ret r => (Finished r, w, [])
  | Vis e k =>
      if awaited I e
      then (Suspended e k, w, [Invoked e])
      else
        let (x, w1) := perform v e w in
        let '(s, w2, t) := advance v (k x) w1 in
        (s, w2, Did e :: t)
  end.

(** The awaited call of a suspended invocation settles and the
    invocation runs to its next [await]. *)
Definition resume {R} (v : env) (s : task R) (w : world)
    : task R * world * trace :=
  match s with
  | Finished r => (Finished r, w, [])
  | Suspended e k =>
      let (x, w1) := perform v e w in
      let '(s', w2, t) := advance v (k x) w1 in
      (s', w2, Settled e (settled_ok I e x) :: t)
  end.

End Programs.

Arguments Ret {I R} r.
Arguments Vis {I R} e k.
Arguments Finished {I R} r.
Arguments Suspended {I R} e k.
Arguments Did {I} e.
Arguments Invoked {I} e.
Arguments Settled {I} e ok.

(** The three components of what an execution yields. *)
Definition outcome {R W T} (x : R * W * T) : R := fst (fst x).
Definition final {R W T} (x : R * W * T) : W := snd (fst x).
Definition events {R W T} (x : R * W * T) : T := snd x.

(** The awaited call a suspended invocation is waiting on. *)
Definition awaiting {I R} (s : task I R) : option (event I) :=
  match s with
  | Finished _ => None
  | Suspended e _ => Some e
  end.

(** The awaited calls issued in a trace, in order. *)
Definition calls {I} (t : trace I) : list (event I) :=
  flat_map (fun x => match x with Invoked e => [e] | _ => [] end) t.

Section Suspensions.

Variable I : iface.
Variables world env : Type.
Variable perform : env -> forall e : event I, world -> reply I e * world.

(** The awaited calls of an invocation run on its own, each with the world
    as it stands at the moment the call is issued.  Nothing else runs here
    during a wait: no other invocation and no timer. *)
Fixpoint snapshots {R} (v : env) (p : prog I R) (w : world)
  : list (event I * world) :=
  match p with
  | Ret _ => []
  | Vis e k =>
      let (x, w1) := perform v e w in
      (if awaited I e then [(e, w)] else []) ++ snapshots v (k x) w1
  end.

(** The same when the world is disturbed during the waits: while the
    invocation is suspended on its [n]-th awaited call, other invocations
    and timers turn the world [w] into [disturb n w], whatever that is.
    Within a synchronous stretch nothing else runs. *)
Fixpoint snapshotsUnder {R} (disturb : nat -> world -> world) (n : nat)
    (v : env) (p : prog I R) (w : world) : list (event I * world) :=
  match p with
  | Ret _ => []
  | Vis e k =>
      let (x, w1) := perform v e w in
      if awaited I e
      then (e, w) :: snapshotsUnder disturb (S n) v (k x) (disturb n w1)
      else snapshotsUnder disturb n v (k x) w1
  end.

End Suspensions.

Declare Scope prog_scope.
Delimit Scope prog_scope with prog.
Notation "x <- p ;; q" := (seq p (fun x => q))
  (at level 61, p at next level, right associativity) : prog_scope.
Notation "p ;; q" := (seq p (fun _ => q))
  (at level 61, right associativity) : prog_scope.

(** ** pages/Buckets.tsx *)

Module Buckets.

(** [Bucket] of the MSP client: the page reads [bucketId] and [name]. *)
Record Bucket : Type := {
  bucket_bucketId : jsstring;
  bucket_name : jsstring
}.

(** [BucketInfo] of types/index.ts. *)
Record BucketInfo : Type := {
  bucketId : jsstring;
  userId : jsstring;
  mspId : jsstring;
  private : bool;
  root : jsstring;
  valuePropositionId : jsstring
}.

Inductive Step : Type := idle | creating | verifying | waiting | done | error.

(** [BucketCreationProgress] of types/index.ts. *)
Record BucketCreationProgress : Type := {
  step : Step;
  message : jsstring
}.

(** The [useState] cells of the component, and the two flags it reads
    from [useAppState]. *)
Record State : Type := {
  isAuthenticated : bool;
  isMspConnected : bool;
  buckets : list Bucket;
  selectedBucket : option BucketInfo;
  selectedBucketId : option jsstring;
  isLoadingBuckets : bool;
  isLoadingBucketInfo : bool;
  isDeleting : option jsstring;
  pageError : option jsstring;
  bucketName : jsstring;
  createProgress : BucketCreationProgress
}.

(** The state of the first render. *)
Definition initialState (auth msp : bool) : State := {|
  isAuthenticated := auth;
  isMspConnected := msp;
  buckets := [];
  selectedBucket := None;
  selectedBucketId := None;
  isLoadingBuckets := false;
  isLoadingBucketInfo := false;
  isDeleting := None;
  pageError := None;
  bucketName := [];
  createProgress := {| step := idle; message := [] |}
|}.

Inductive setter : Type :=
| setBuckets (v : list Bucket)
| setSelectedBucket (v : option BucketInfo)
| setSelectedBucketId (v : option jsstring)
| setIsLoadingBuckets (v : bool)
| setIsLoadingBucketInfo (v : bool)
| setIsDeleting (v : option jsstring)
| setError (v : option jsstring)
| setBucketName (v : jsstring)
| setCreateProgress (v : BucketCreationProgress).

Definition apply_setter (u : setter) (s : State) : State :=
  let '(Build_State a m b sb sbi lb lbi d e n p) := s in
  match u with
  | setBuckets v => Build_State a m v sb sbi lb lbi d e n p
  | setSelectedBucket v => Build_State a m b v sbi lb lbi d e n p
  | setSelectedBucketId v => Build_State a m b sb v lb lbi d e n p
  | setIsLoadingBuckets v => Build_State a m b sb sbi v lbi d e n p
  | setIsLoadingBucketInfo v => Build_State a m b sb sbi lb v d e n p
  | setIsDeleting v => Build_State a m b sb sbi lb lbi v e n p
  | setError v => Build_State a m b sb sbi lb lbi d v n p
  | setBucketName v => Build_State a m b sb sbi lb lbi d e v p
  | setCreateProgress v => Build_State a m b sb sbi lb lbi d e n v
  end.

Inductive ev : Type :=
| Set_ (u : setter)
| PreventDefault                         (* e.preventDefault() *)
| Confirm (question : jsstring)          (* window.confirm *)
| SetTimeout (callback : list setter) (ms : N)
| CreateBucket (name : jsstring)
| VerifyBucketCreation (id : jsstring)
| WaitForBackendBucketReady (id : jsstring)
| DeleteBucket (id : jsstring)
| GetBucketsFromMSP.

Definition rep (e : ev) : Type :=
  match e with
  | Set_ _ | PreventDefault | SetTimeout _ _ => unit
  | Confirm _ => bool
  | CreateBucket _ => result jsstring    (* the [bucketId] of the object returned *)
  | VerifyBucketCreation _ => result BucketInfo
  | WaitForBackendBucketReady _ => result unit
  | DeleteBucket _ => result unit
  | GetBucketsFromMSP => result (list Bucket)
  end.

(** The calls of services/bucketOperations are the awaited ones. *)
Definition is_awaited (e : ev) : bool :=
  match e with
  | CreateBucket _ | VerifyBucketCreation _ | WaitForBackendBucketReady _
  | DeleteBucket _ | GetBucketsFromMSP => true
  | _ => false
  end.

Definition ok_of (e : ev) : rep e -> bool :=
  match e return rep e -> bool with
  | CreateBucket _ => @is_ok _
  | VerifyBucketCreation _ => @is_ok _
  | WaitForBackendBucketReady _ => @is_ok _
  | DeleteBucket _ => @is_ok _
  | GetBucketsFromMSP => @is_ok _
  | _ => fun _ => true
  end.

Definition I : iface := Iface rep is_awaited ok_of.

(** What the collaborators answer during one invocation of a handler. *)
Record Env : Type := {
  confirm : jsstring -> bool;
  createBucket : jsstring -> result jsstring;
  verifyBucketCreation : jsstring -> result BucketInfo;
  waitForBackendBucketReady : jsstring -> result unit;
  deleteBucket : jsstring -> result unit;
  getBucketsFromMSP : result (list Bucket)
}.

(** The component's cells and the timers it has armed. *)
Record World : Type := {
  state : State;
  timers : list (N * list setter)
}.

Definition perform (v : Env) (e : ev) (w : World) : rep e * World :=
  match e return rep e * World with
  | Set_ u => (tt, {| state := apply_setter u (state w); timers := timers w |})
  | PreventDefault => (tt, w)
  | Confirm q => (confirm v q, w)
  | SetTimeout cb ms =>
      (tt, {| state := state w; timers := timers w ++ [(ms, cb)] |})
  | CreateBucket n => (createBucket v n, w)
  | VerifyBucketCreation id => (verifyBucketCreation v id, w)
  | WaitForBackendBucketReady id => (waitForBackendBucketReady v id, w)
  | DeleteBucket id => (deleteBucket v id, w)
  | GetBucketsFromMSP => (getBucketsFromMSP v, w)
  end.

(** A timer fires: its callback's setters are applied. *)
Definition fire (cb : list setter) (s : State) : State :=
  fold_left (fun s' u => apply_setter u s') cb s.

Local Open Scope prog_scope.
Local Abbreviation exec e := (@Vis I _ e (fun x => Ret (Ok x))).
Local Abbreviation call e := (@Vis I _ e (fun r => Ret r)).
Local Abbreviation set_ u := (exec (Set_ u)).

(** Handlers close over the state of the render that created them: the
    argument [c] is that state, read for [bucketName], [isMspConnected]
    and [selectedBucketId]. *)

Definition loadBuckets (c : State) : stmt I unit :=
  if negb (isMspConnected c) then ret I tt
  else
    set_ (setIsLoadingBuckets true) ;;
    set_ (setError None) ;;
    try_finally
      (try_catch
         (data <- call GetBucketsFromMSP ;;
          set_ (setBuckets data))
         (fun err =>
            set_ (setError (Some (message_or (lit "Failed to load buckets") err)))))
      (set_ (setIsLoadingBuckets false)).

Definition handleViewBucket (c : State) (id : jsstring) : stmt I unit :=
  set_ (setSelectedBucketId (Some id)) ;;
  set_ (setIsLoadingBucketInfo true) ;;
  set_ (setError None) ;;
  try_finally
    (try_catch
       (info <- call (VerifyBucketCreation id) ;;
        set_ (setSelectedBucket (Some info)))
       (fun err =>
          set_ (setError (Some (message_or (lit "Failed to load bucket info") err)))))
    (set_ (setIsLoadingBucketInfo false)).

Definition handleCreateBucket (c : State) : stmt I unit :=
  exec PreventDefault ;;
  if negb (truthy (trim (bucketName c))) then ret I tt
  else
    set_ (setError None) ;;
    try_catch
      ((* Step 1: Create bucket on-chain *)
       set_ (setCreateProgress
               {| step := creating; message := lit "Creating bucket on-chain..." |}) ;;
       id <- call (CreateBucket (bucketName c)) ;;
       (* Step 2: Verify on-chain *)
       set_ (setCreateProgress
               {| step := verifying; message := lit "Verifying bucket on-chain..." |}) ;;
       call (VerifyBucketCreation id) ;;
       (* Step 3: Wait for backend *)
       set_ (setCreateProgress
               {| step := waiting; message := lit "Waiting for backend to index..." |}) ;;
       call (WaitForBackendBucketReady id) ;;
       (* Done *)
       set_ (setCreateProgress
               {| step := done; message := lit "Bucket created successfully!" |}) ;;
       set_ (setBucketName []) ;;
       (* Refresh bucket list *)
       loadBuckets c ;;
       (* Reset progress after a delay *)
       exec (SetTimeout [setCreateProgress {| step := idle; message := [] |}] 2000))
      (fun err =>
         set_ (setCreateProgress
                 {| step := error;
                    message := message_or (lit "Failed to create bucket") err |}) ;;
         set_ (setError (Some (message_or (lit "Failed to create bucket") err)))).

(** [selectedBucketId === bucketId] *)
Definition is_selected (sel : option jsstring) (id : jsstring) : bool :=
  match sel with Some s => Js.eqb s id | None => false end.

Definition handleDeleteBucket (c : State) (id : jsstring) : stmt I unit :=
  yes <- exec (Confirm (lit "Are you sure you want to delete this bucket?")) ;;
  if negb yes then ret I tt
  else
    set_ (setIsDeleting (Some id)) ;;
    set_ (setError None) ;;
    try_finally
      (try_catch
         (call (DeleteBucket id) ;;
          loadBuckets c ;;
          if is_selected (selectedBucketId c) id
          then set_ (setSelectedBucket None) ;;
               set_ (setSelectedBucketId None)
          else ret I tt)
         (fun err =>
            set_ (setError (Some (message_or (lit "Failed to delete bucket") err)))))
      (set_ (setIsDeleting None)).

(** *** Rendering *)

Inductive Status : Type := pending | active | completed | error_status.

Record ProgressStep : Type := {
  label : jsstring;
  status : Status
}.

Definition steps : list ProgressStep := [
  {| label := lit "Creating bucket on-chain..."; status := pending |};
  {| label := lit "Verifying on-chain..."; status := pending |};
  {| label := lit "Waiting for backend..."; status := pending |};
  {| label := lit "Done!"; status := pending |}
].

(** [stepMap[key]]: [undefined] for a key the object lacks. *)
Definition stepMap (key : Step) : option Z :=
  match key with
  | creating => Some 0%Z
  | verifying => Some 1%Z
  | waiting => Some 2%Z
  | done => Some 3%Z
  | idle | error => None
  end.

Definition is_error (s : Step) : bool :=
  match s with error => true | _ => false end.

(** [Array.prototype.map], the callback receiving element and index. *)
Fixpoint map_indexed {A B} (f : A -> Z -> B) (i : Z) (l : list A) : list B :=
  match l with
  | [] => []
  | a :: l' => f a i :: map_indexed f (i + 1)%Z l'
  end.

Definition getProgressSteps (c : State) : list ProgressStep :=
  let currentStep :=
    match stepMap (step (createProgress c)) with
    | Some n => n
    | None => (-1)%Z
    end in
  map_indexed
    (fun st index =>
       {| label := label st;
          status :=
            if is_error (step (createProgress c)) && Z.eqb index currentStep
            then error_status
            else if Z.ltb index currentStep then completed
            else if Z.eqb index currentStep then active
            else pending |})
    0%Z steps.

(** A step the stepper marks out: the active one or a failed one. *)
Definition highlighted (s : Status) : bool :=
  match s with active | error_status => true | _ => false end.

Definition is_idle (s : Step) : bool :=
  match s with idle => true | _ => false end.

Definition is_done (s : Step) : bool :=
  match s with done => true | _ => false end.

(** [createProgress.step !== 'idle' && createProgress.step !== 'done' &&
    createProgress.step !== 'error']: the [disabled] of the name input and
    the [isLoading] of the submit button. *)
Definition inProgress (c : State) : bool :=
  let s := step (createProgress c) in
  negb (is_idle s) && negb (is_done s) && negb (is_error s).

(** The [disabled] of the submit button. *)
Definition submitDisabled (c : State) : bool :=
  negb (truthy (trim (bucketName c))) || inProgress c.

(** *** Running a handler *)

(** The world a handler starts in: the cells hold the state [c] its
    render closed over. *)
Definition fresh (c : State) : World := {| state := c; timers := [] |}.

Definition execute {R} (v : Env) (p : prog I R) (w : World) :=
  run (I:=I) perform v p w.

Definition start {R} (v : Env) (p : prog I R) (w : World) :=
  advance (I:=I) perform v p w.

Definition continue {R} (v : Env) (s : task I R) (w : World) :=
  resume (I:=I) perform v s w.

(** A form submission in state [c]. *)
Definition createRun (v : Env) (c : State) :=
  execute v (handleCreateBucket c) (fresh c).

(** A click on Delete for bucket [id] in state [c]. *)
Definition deleteRun (v : Env) (c : State) (id : jsstring) :=
  execute v (handleDeleteBucket c id) (fresh c).

(** The values passed to [setCreateProgress], in order: what the
    progress stepper is given to show. *)
Definition reported (t : trace I) : list BucketCreationProgress :=
  flat_map (fun x : entry I =>
              match x with
              | Did (Set_ (setCreateProgress p)) => [p]
              | _ => []
              end) t.

Definition phases (t : trace I) : list Step := map step (reported t).

(** The values passed to [setBuckets], in order. *)
Definition listingWrites (t : trace I) : list (list Bucket) :=
  flat_map (fun x : entry I =>
              match x with
              | Did (Set_ (setBuckets v)) => [v]
              | _ => []
              end) t.

(** The creation fails with [err]: one of its three awaited calls
    throws. *)
Inductive createFails (v : Env) (c : State) (err : thrown) : Prop :=
| fails_submitting :
    truthy (trim (bucketName c)) = true ->
    createBucket v (bucketName c) = Throw err ->
    createFails v c err
| fails_verifying (id : jsstring) :
    truthy (trim (bucketName c)) = true ->
    createBucket v (bucketName c) = Ok id ->
    verifyBucketCreation v id = Throw err ->
    createFails v c err
| fails_waiting (id : jsstring) (info : BucketInfo) :
    truthy (trim (bucketName c)) = true ->
    createBucket v (bucketName c) = Ok id ->
    verifyBucketCreation v id = Ok info ->
    waitForBackendBucketReady v id = Throw err ->
    createFails v c err.

(** The creation succeeds: its three awaited calls return. *)
Definition createSucceeds (v : Env) (c : State) (id : jsstring) : Prop :=
  truthy (trim (bucketName c)) = true /\
  createBucket v (bucketName c) = Ok id /\
  (exists info, verifyBucketCreation v id = Ok info) /\
  waitForBackendBucketReady v id = Ok tt.

(** The deletion succeeds: the user confirms and [deleteBucket]
    returns. *)
Definition deleteSucceeds (v : Env) (id : jsstring) : Prop :=
  confirm v (lit "Are you sure you want to delete this bucket?") = true /\
  deleteBucket v id = Ok tt.

(** A failure is delivered to the caller: the handler's promise
    rejects. *)
Definition failureDelivered {W T} (x : result unit * W * T) : Prop :=
  exists err, outcome x = Throw err.

(** The listing is queried again during the run. *)
Definition requeried (t : trace I) : Prop := In GetBucketsFromMSP (calls t).

(** An invocation is turned away at once: it is finished, with a
    failure, when its synchronous start returns, and has issued no call. *)
Definition turnedAway {R} (x : task I (result R) * World * trace I) : Prop :=
  (exists err, outcome x = Finished (Throw err)) /\ calls (events x) = [].

(** What a refresh through [loadBuckets] amounts to, depending on
    [isMspConnected] and on how [getBucketsFromMSP] settles. *)
Definition refreshCalls (c : State) : list ev :=
  if isMspConnected c then [GetBucketsFromMSP] else [].

Definition refreshWrites (v : Env) (c : State) : list (list Bucket) :=
  if isMspConnected c
  then match getBucketsFromMSP v with Ok data => [data] | Throw _ => [] end
  else [].

Definition refreshed (v : Env) (c : State) : list Bucket :=
  if isMspConnected c
  then match getBucketsFromMSP v with Ok data => data | Throw _ => buckets c end
  else buckets c.

(** *** Example environments *)

Definition docs : jsstring := lit "docs".
Definition B1 : jsstring := lit "B1".

Definition B1_info : BucketInfo := {|
  bucketId := B1; userId := lit "alice"; mspId := lit "msp";
  private := false; root := lit "0xaa"; valuePropositionId := lit "vp"
|}.

Definition B1_listed : Bucket := {| bucket_bucketId := B1; bucket_name := docs |}.

(** Every collaborator answers normally. *)
Definition all_well : Env := {|
  confirm := fun _ => true;
  createBucket := fun _ => Ok B1;
  verifyBucketCreation := fun _ => Ok B1_info;
  waitForBackendBucketReady := fun _ => Ok tt;
  deleteBucket := fun _ => Ok tt;
  getBucketsFromMSP := Ok [B1_listed]
|}.

(** The submission is rejected. *)
Definition rejected (err : thrown) : Env := {|
  confirm := fun _ => true;
  createBucket := fun _ => Throw err;
  verifyBucketCreation := fun _ => Ok B1_info;
  waitForBackendBucketReady := fun _ => Ok tt;
  deleteBucket := fun _ => Ok tt;
  getBucketsFromMSP := Ok []
|}.

(** The backend becomes ready for bucket B1 and for no other. *)
Definition ready_for_B1 : Env := {|
  confirm := fun _ => true;
  createBucket := fun _ => Ok B1;
  verifyBucketCreation := fun _ => Ok B1_info;
  waitForBackendBucketReady := fun id =>
    if Js.eqb id B1 then Ok tt
    else Throw (ErrorObj (lit "Bucket not found in MSP backend"));
  deleteBucket := fun _ => Ok tt;
  getBucketsFromMSP := Ok [B1_listed]
|}.

(** The page with [name] typed into the form. *)
Definition typed (msp : bool) (name : jsstring) : State :=
  apply_setter (setBucketName name) (initialState true msp).

(** *** The rendered page *)

Definition truncateHash (hash : jsstring) : jsstring :=
  slice hash 0 (Some 10%Z) ++ lit "..." ++ slice hash (-8) None.

(** The form of the "Create Bucket" card. *)
Record FormView : Type := {
  inputValue : jsstring;
  inputDisabled : bool;
  submitLoading : bool;
  submitIsDisabled : bool;
  (** the [ProgressStepper], when it is rendered *)
  stepper : option (list ProgressStep)
}.

(** A row of the bucket table. *)
Record RowView : Type := {
  rowKey : jsstring;
  rowSelected : bool;
  rowName : jsstring;
  rowId : jsstring;
  viewLoading : bool;
  deleteLoading : bool
}.

Inductive ListingView : Type :=
| LoadingBuckets               (* "Loading buckets..." *)
| NoBuckets                    (* "No buckets found. ..." *)
| Table (rows : list RowView).

(** The "Bucket Details" card. *)
Record DetailsView : Type := {
  shownBucketId : option jsstring;
  shownUserId : jsstring;
  shownMspId : jsstring;
  badgeStatus : jsstring;
  badgeLabel : jsstring;
  shownRoot : option jsstring;
  shownValuePropositionId : option jsstring
}.

Inductive PageView : Type :=
| AuthenticationRequired
| Page (alert : option jsstring) (form : FormView) (refreshLoading : bool)
       (listing : ListingView) (details : option DetailsView).

(** [{value && (...)}] for a string: rendered when the string is not
    empty. *)
Definition when_truthy (value : jsstring) : option jsstring :=
  if truthy value then Some value else None.

Definition renderForm (c : State) : FormView := {|
  inputValue := bucketName c;
  inputDisabled := inProgress c;
  submitLoading := inProgress c;
  submitIsDisabled := submitDisabled c;
  stepper :=
    if negb (is_idle (step (createProgress c)))
    then Some (getProgressSteps c) else None
|}.

Definition renderRow (c : State) (bucket : Bucket) : RowView := {|
  rowKey := bucket_bucketId bucket;
  rowSelected := is_selected (selectedBucketId c) (bucket_bucketId bucket);
  rowName := or_else (bucket_name bucket) (lit "Unnamed");
  rowId := truncateHash (bucket_bucketId bucket);
  viewLoading :=
    isLoadingBucketInfo c && is_selected (selectedBucketId c) (bucket_bucketId bucket);
  deleteLoading := is_selected (isDeleting c) (bucket_bucketId bucket)
|}.

Definition renderListing (c : State) : ListingView :=
  if isLoadingBuckets c then LoadingBuckets
  else if (List.length (buckets c) =? 0)%nat then NoBuckets
  else Table (map (renderRow c) (buckets c)).

Definition renderDetails (c : State) : option DetailsView :=
  match selectedBucket c with
  | None => None
  | Some info =>
      Some {| shownBucketId := selectedBucketId c;
              shownUserId := userId info;
              shownMspId := mspId info;
              badgeStatus := if private info then lit "pending" else lit "healthy";
              badgeLabel := if private info then lit "Private" else lit "Public";
              shownRoot := when_truthy (root info);
              shownValuePropositionId := when_truthy (valuePropositionId info) |}
  end.

(** What the component returns, as far as it depends on the state. *)
Definition render (c : State) : PageView :=
  if negb (isAuthenticated c) then AuthenticationRequired
  else
    Page (match pageError c with
          | Some m => when_truthy m
          | None => None
          end)
         (renderForm c)
         (isLoadingBuckets c)
         (renderListing c)
         (renderDetails c).

(** The state at the moment an invocation, run on its own, issues each of
    its awaited calls. *)
Definition suspensions {R} (v : Env) (p : prog I R) (w : World) : list (ev * State) :=
  map (fun x : ev * World => (fst x, state (snd x))) (snapshots (I:=I) perform v p w).

(** The same with the world disturbed during the waits. *)
Definition suspensionsUnder {R} (disturb : nat -> World -> World)
    (v : Env) (p : prog I R) (w : World) : list (ev * State) :=
  map (fun x : ev * World => (fst x, state (snd x)))
      (snapshotsUnder (I:=I) perform disturb 0 v p w).

(** The calls of the creation proper, as opposed to the refresh. *)
Definition is_creation_call (e : ev) : bool :=
  match e with
  | CreateBucket _ | VerifyBucketCreation _ | WaitForBackendBucketReady _ => true
  | _ => false
  end.

(** The calls a creation issues after a wait without clearing the page
    error again. *)
Definition is_later_creation_call (e : ev) : bool :=
  match e with
  | VerifyBucketCreation _ | WaitForBackendBucketReady _ => true
  | _ => false
  end.

Definition all_pending (l : list ProgressStep) : bool :=
  forallb (fun st => match status st with pending => true | _ => false end) l.

(** The user answers no to the confirmation. *)
Definition declining : Env := {|
  confirm := fun _ => false;
  createBucket := fun _ => Ok B1;
  verifyBucketCreation := fun _ => Ok B1_info;
  waitForBackendBucketReady := fun _ => Ok tt;
  deleteBucket := fun _ => Ok tt;
  getBucketsFromMSP := Ok [B1_listed]
|}.

(** The chain is out of reach: deleting and reading a bucket fail. *)
Definition chain_down : Env := {|
  confirm := fun _ => true;
  createBucket := fun _ => Ok B1;
  verifyBucketCreation := fun _ => Throw (ErrorObj (lit "Bucket not found on chain"));
  waitForBackendBucketReady := fun _ => Ok tt;
  deleteBucket := fun _ => Throw (ErrorObj (lit "transaction failed"));
  getBucketsFromMSP := Ok [B1_listed]
|}.

Definition B2 : jsstring := lit "B2".

(** The page with the details of bucket B1 on display. *)
Definition viewing_B1 : State :=
  apply_setter (setSelectedBucket (Some B1_info))
    (apply_setter (setSelectedBucketId (Some B1))
       (apply_setter (setBuckets [B1_listed]) (initialState true true))).

End Buckets.

(** ** context/AppContext.tsx *)

Module AppContext.

(** Payloads of the MSP client, opaque to the provider. *)
Record InfoResponse : Type := { info_payload : jsstring }.
Record UserInfo : Type := { user_payload : jsstring }.
Record HealthStatus : Type := { health_payload : jsstring }.

(** [AppState] of types/index.ts. *)
Record AppState : Type := {
  isWalletConnected : bool;
  isMspConnected : bool;
  isAuthenticated : bool;
  address : option jsstring;
  mspInfo : option InfoResponse;
  userProfile : option UserInfo
}.

Definition initialState : AppState := {|
  isWalletConnected := false;
  isMspConnected := false;
  isAuthenticated := false;
  address := None;
  mspInfo := None;
  userProfile := None
|}.

(** The provider's cells and the module-level [wasmInitialized]. *)
Record World : Type := {
  state : AppState;
  isLoading : bool;
  error : option jsstring;
  wasmInitialized : bool
}.

Definition initialWorld : World := {|
  state := initialState;
  isLoading := false;
  error := None;
  wasmInitialized := false
|}.

Inductive ev : Type :=
| SetState (update : AppState -> AppState)
| SetIsLoading (v : bool)
| SetError (v : option jsstring)
| ReadWasmInitialized
| WriteWasmInitialized (v : bool)
| InitWasm
| ConnectWalletService
| InitPolkadotApi
| DisconnectWallet
| DisconnectMsp
| ConnectToMsp
| GetMspInfo
| AuthUser
| GetMspHealth
| GetConnectedAddress
| RestoreWalletConnection
| CheckAuth
| GetUserProfile.

(** Every collaborator call may throw, [getConnectedAddress] apart, which
    reads the stored address.  What [connectWalletService] resolves to is
    stored unchecked into [address : string | null]: like
    [restoreWalletConnection] and [getConnectedAddress], it may answer
    [null]. *)
Definition rep (e : ev) : Type :=
  match e with
  | SetState _ | SetIsLoading _ | SetError _ | WriteWasmInitialized _
    => unit
  | ReadWasmInitialized => bool
  | InitWasm | InitPolkadotApi | ConnectToMsp
  | DisconnectWallet | DisconnectMsp => result unit
  | ConnectWalletService => result (option jsstring)
  | GetMspInfo => result InfoResponse
  | AuthUser => result UserInfo
  | GetMspHealth => result HealthStatus
  | GetConnectedAddress => option jsstring
  | RestoreWalletConnection => result (option jsstring)
  | CheckAuth => result bool
  | GetUserProfile => result (option UserInfo)
  end.

Definition is_awaited (e : ev) : bool :=
  match e with
  | InitWasm | ConnectWalletService | InitPolkadotApi | ConnectToMsp
  | GetMspInfo | AuthUser | GetMspHealth | RestoreWalletConnection => true
  | _ => false
  end.

Definition ok_of (e : ev) : rep e -> bool :=
  match e return rep e -> bool with
  | InitWasm => @is_ok _
  | InitPolkadotApi => @is_ok _
  | ConnectToMsp => @is_ok _
  | ConnectWalletService => @is_ok _
  | DisconnectWallet => @is_ok _
  | DisconnectMsp => @is_ok _
  | GetMspInfo => @is_ok _
  | AuthUser => @is_ok _
  | GetMspHealth => @is_ok _
  | RestoreWalletConnection => @is_ok _
  | CheckAuth => @is_ok _
  | GetUserProfile => @is_ok _
  | _ => fun _ => true
  end.

Definition I : iface := Iface rep is_awaited ok_of.

(** What the collaborators answer during one invocation. *)
Record Env : Type := {
  initWasm : result unit;
  connectWalletService : result (option jsstring);
  initPolkadotApi : result unit;
  disconnectWallet : result unit;
  disconnectMsp : result unit;
  connectToMsp : result unit;
  getMspInfo : result InfoResponse;
  authUser : result UserInfo;
  getMspHealth : result HealthStatus;
  getConnectedAddress : option jsstring;
  restoreWalletConnection : result (option jsstring);
  checkAuth : result bool;
  getUserProfile : result (option UserInfo)
}.

Definition perform (v : Env) (e : ev) (w : World) : rep e * World :=
  match e return rep e * World with
  | SetState f =>
      (tt, {| state := f (state w); isLoading := isLoading w;
              error := error w; wasmInitialized := wasmInitialized w |})
  | SetIsLoading b =>
      (tt, {| state := state w; isLoading := b;
              error := error w; wasmInitialized := wasmInitialized w |})
  | SetError m =>
      (tt, {| state := state w; isLoading := isLoading w;
              error := m; wasmInitialized := wasmInitialized w |})
  | ReadWasmInitialized => (wasmInitialized w, w)
  | WriteWasmInitialized b =>
      (tt, {| state := state w; isLoading := isLoading w;
              error := error w; wasmInitialized := b |})
  | InitWasm => (initWasm v, w)
  | ConnectWalletService => (connectWalletService v, w)
  | InitPolkadotApi => (initPolkadotApi v, w)
  | DisconnectWallet => (disconnectWallet v, w)
  | DisconnectMsp => (disconnectMsp v, w)
  | ConnectToMsp => (connectToMsp v, w)
  | GetMspInfo => (getMspInfo v, w)
  | AuthUser => (authUser v, w)
  | GetMspHealth => (getMspHealth v, w)
  | GetConnectedAddress => (getConnectedAddress v, w)
  | RestoreWalletConnection => (restoreWalletConnection v, w)
  | CheckAuth => (checkAuth v, w)
  | GetUserProfile => (getUserProfile v, w)
  end.

Local Open Scope prog_scope.
Local Abbreviation exec e := (@Vis I _ e (fun x => Ret (Ok x))).
Local Abbreviation call e := (@Vis I _ e (fun r => Ret r)).

(** [if (!wasmInitialized) { await initWasm(); wasmInitialized = true; }] *)
Definition ensureWasm : stmt I unit :=
  initialized <- exec ReadWasmInitialized ;;
  if negb initialized
  then call InitWasm ;; exec (WriteWasmInitialized true)
  else ret I tt.

Definition clearError : stmt I unit := exec (SetError None).

Definition connectWallet : stmt I unit :=
  exec (SetIsLoading true) ;;
  exec (SetError None) ;;
  try_finally
    (try_catch
       ((* Initialize WASM if not already done *)
        ensureWasm ;;
        addr <- call ConnectWalletService ;;
        call InitPolkadotApi ;;
        exec (SetState (fun prev =>
          {| isWalletConnected := true;
             isMspConnected := isMspConnected prev;
             isAuthenticated := isAuthenticated prev;
             address := addr;
             mspInfo := mspInfo prev;
             userProfile := userProfile prev |})))
       (fun err =>
          exec (SetError (Some (message_or (lit "Failed to connect wallet") err))) ;;
          Ret (Throw err)))
    (exec (SetIsLoading false)).

Definition disconnect : stmt I unit :=
  call DisconnectWallet ;;
  call DisconnectMsp ;;
  exec (SetState (fun _ =>
    {| isWalletConnected := false;
       isMspConnected := false;
       isAuthenticated := false;
       address := None;
       mspInfo := None;
       userProfile := None |})).

Definition connectMsp : stmt I unit :=
  exec (SetIsLoading true) ;;
  exec (SetError None) ;;
  try_finally
    (try_catch
       (call ConnectToMsp ;;
        info <- call GetMspInfo ;;
        exec (SetState (fun prev =>
          {| isWalletConnected := isWalletConnected prev;
             isMspConnected := true;
             isAuthenticated := isAuthenticated prev;
             address := address prev;
             mspInfo := Some info;
             userProfile := userProfile prev |})))
       (fun err =>
          exec (SetError (Some (message_or (lit "Failed to connect to MSP") err))) ;;
          Ret (Throw err)))
    (exec (SetIsLoading false)).

Definition authenticateUser : stmt I unit :=
  exec (SetIsLoading true) ;;
  exec (SetError None) ;;
  try_finally
    (try_catch
       (profile <- call AuthUser ;;
        exec (SetState (fun prev =>
          {| isWalletConnected := isWalletConnected prev;
             isMspConnected := isMspConnected prev;
             isAuthenticated := true;
             address := address prev;
             mspInfo := mspInfo prev;
             userProfile := Some profile |})))
       (fun err =>
          exec (SetError (Some (message_or (lit "Failed to authenticate") err))) ;;
          Ret (Throw err)))
    (exec (SetIsLoading false)).

Definition getMspHealthStatus : stmt I HealthStatus :=
  try_catch
    (call GetMspHealth)
    (fun err =>
       exec (SetError (Some (message_or (lit "Failed to get MSP health") err))) ;;
       Ret (Throw err)).

(** Restore session from storage on mount. *)
Definition restoreSession : stmt I unit :=
  (* Check if we have persisted state to restore *)
  persistedAddress <- exec GetConnectedAddress ;;
  if negb (truthy_opt persistedAddress) then ret I tt
  else
    exec (SetIsLoading true) ;;
    try_finally
      (try_catch
         ((* Initialize WASM if needed *)
          ensureWasm ;;
          (* Try to restore wallet connection *)
          restoredAddress <- call RestoreWalletConnection ;;
          if negb (truthy_opt restoredAddress)
          then (* Wallet no longer connected, state was cleared *) ret I tt
          else
            (* Initialize Polkadot API *)
            call InitPolkadotApi ;;
            (* Check if we have a valid session *)
            isAuth <- call CheckAuth ;;
            profile <- call GetUserProfile ;;
            (* If we have auth, reconnect to MSP *)
            if (isAuth : bool)
            then
              call ConnectToMsp ;;
              info <- call GetMspInfo ;;
              exec (SetState (fun _ =>
                {| isWalletConnected := true;
                   isMspConnected := true;
                   isAuthenticated := true;
                   address := restoredAddress;
                   mspInfo := Some info;
                   userProfile := profile |}))
            else
              exec (SetState (fun prev =>
                {| isWalletConnected := true;
                   isMspConnected := isMspConnected prev;
                   isAuthenticated := isAuthenticated prev;
                   address := restoredAddress;
                   mspInfo := mspInfo prev;
                   userProfile := userProfile prev |})))
         (fun _ => (* Failed to restore session, start fresh *) ret I tt))
      (exec (SetIsLoading false)).

(** The operations of the provider: the actions of its context value and
    the mount effect. *)
Inductive Op : Type :=
| OpConnectWallet
| OpDisconnect
| OpConnectMsp
| OpAuthenticateUser
| OpGetMspHealthStatus
| OpClearError
| OpRestoreSession.

Definition forget {A} (p : stmt I A) : stmt I unit := seq p (fun _ => ret I tt).

Definition program (o : Op) : stmt I unit :=
  match o with
  | OpConnectWallet => connectWallet
  | OpDisconnect => disconnect
  | OpConnectMsp => connectMsp
  | OpAuthenticateUser => authenticateUser
  | OpGetMspHealthStatus => forget getMspHealthStatus
  | OpClearError => clearError
  | OpRestoreSession => restoreSession
  end.

(** One operation, run to completion against its environment. *)
Definition exec_op (o : Op) (v : Env) (w : World) : World * trace I :=
  let '(_, w', t) := run (I:=I) perform v (program o) w in (w', t).

(** Operations one after the other, each with its own environment. *)
Fixpoint run_ops (ops : list (Op * Env)) (w : World) : World * trace I :=
  match ops with
  | [] => (w, [])
  | (o, v) :: rest =>
      let (w1, t1) := exec_op o v w in
      let (w2, t2) := run_ops rest w1 in
      (w2, t1 ++ t2)
  end.

Inductive reachable : World -> Prop :=
| reach_initial : reachable initialWorld
| reach_op (o : Op) (v : Env) (w : World) :
    reachable w -> reachable (fst (exec_op o v w)).

(** The trace of a sequence of operations from the initial world. *)
Definition history (ops : list (Op * Env)) : trace I :=
  snd (run_ops ops initialWorld).

(** How often [initWasm] was called, and how often it returned. *)
Definition is_initWasm (e : ev) : bool :=
  match e with InitWasm => true | _ => false end.

Definition initWasm_invocations (t : trace I) : nat :=
  List.length (filter (fun x : entry I =>
                    match x with Invoked e => is_initWasm e | _ => false end) t).

Definition initWasm_completions (t : trace I) : nat :=
  List.length (filter (fun x : entry I =>
                    match x with Settled e true => is_initWasm e | _ => false end) t).

(** The claim of a single bootstrap: over a sequence of operations from
    the initial world, [initWasm] is called at most once. *)
Definition initWasmCalledAtMostOnce (ops : list (Op * Env)) : Prop :=
  initWasm_invocations (history ops) <= 1.

(** A wallet that is flagged connected has an address. *)
Definition connectedHasAddress (s : AppState) : Prop :=
  isWalletConnected s = true -> address s <> None.

(** [connectWalletService] does not resolve to [null]. *)
Definition answersAddress (v : Env) : Prop :=
  connectWalletService v <> Ok None.



(** *** Example environments *)

Definition alice : jsstring := lit "0xA11CE".

(** Every collaborator answers normally; nothing is persisted. *)
Definition all_well : Env := {|
  initWasm := Ok tt;
  connectWalletService := Ok (Some alice);
  initPolkadotApi := Ok tt;
  disconnectWallet := Ok tt;
  disconnectMsp := Ok tt;
  connectToMsp := Ok tt;
  getMspInfo := Ok {| info_payload := lit "msp" |};
  authUser := Ok {| user_payload := lit "alice" |};
  getMspHealth := Ok {| health_payload := lit "healthy" |};
  getConnectedAddress := None;
  restoreWalletConnection := Ok None;
  checkAuth := Ok false;
  getUserProfile := Ok None
|}.

(** The WASM module fails to load. *)
Definition wasm_fails : Env := {|
  initWasm := Throw (ErrorObj (lit "failed to fetch wasm"));
  connectWalletService := Ok (Some alice);
  initPolkadotApi := Ok tt;
  disconnectWallet := Ok tt;
  disconnectMsp := Ok tt;
  connectToMsp := Ok tt;
  getMspInfo := Ok {| info_payload := lit "msp" |};
  authUser := Ok {| user_payload := lit "alice" |};
  getMspHealth := Ok {| health_payload := lit "healthy" |};
  getConnectedAddress := Some alice;
  restoreWalletConnection := Ok (Some alice);
  checkAuth := Ok false;
  getUserProfile := Ok None
|}.

(** *** Observations on the provider *)

(** One operation run on its own. *)
Definition opRun (o : Op) (v : Env) (w : World) :=
  run (I:=I) perform v (program o) w.



(** The three actions wrapped in [try]/[catch]/[finally], with the
    message each one falls back to. *)
Definition fallbackMessage (o : Op) : option jsstring :=
  match o with
  | OpConnectWallet => Some (lit "Failed to connect wallet")
  | OpConnectMsp => Some (lit "Failed to connect to MSP")
  | OpAuthenticateUser => Some (lit "Failed to authenticate")
  | _ => None
  end.

(** [err] is what one of the awaited collaborators of the three actions
    throws. *)
Definition thrownBy (v : Env) (err : thrown) : Prop :=
  initWasm v = Throw err \/
  connectWalletService v = Throw err \/
  initPolkadotApi v = Throw err \/
  connectToMsp v = Throw err \/
  getMspInfo v = Throw err \/
  authUser v = Throw err.

(** The flags of the state agree with what it holds. *)
Definition flagsMatchPayloads (s : AppState) : Prop :=
  (isMspConnected s = true <-> mspInfo s <> None) /\
  (address s <> None -> isWalletConnected s = true) /\
  (userProfile s <> None -> isAuthenticated s = true).

(** The calls into the chain client, which needs the WASM module. *)
Definition needsWasm (e : ev) : bool :=
  match e with
  | ConnectWalletService | RestoreWalletConnection | InitPolkadotApi => true
  | _ => false
  end.

(** The state restored on mount is one of three. *)
Inductive restoredShape (s : AppState) : Prop :=
| restored_nothing : s = initialState -> restoredShape s
| restored_wallet (a : jsstring) :
    truthy a = true ->
    s = {| isWalletConnected := true; isMspConnected := false;
           isAuthenticated := false; address := Some a;
           mspInfo := None; userProfile := None |} ->
    restoredShape s
| restored_session (a : jsstring) (info : InfoResponse) (profile : option UserInfo) :
    truthy a = true ->
    s = {| isWalletConnected := true; isMspConnected := true;
           isAuthenticated := true; address := Some a;
           mspInfo := Some info; userProfile := profile |} ->
    restoredShape s.

(** A session is persisted and restores fully. *)
Definition session_persisted : Env := {|
  initWasm := Ok tt;
  connectWalletService := Ok (Some alice);
  initPolkadotApi := Ok tt;
  disconnectWallet := Ok tt;
  disconnectMsp := Ok tt;
  connectToMsp := Ok tt;
  getMspInfo := Ok {| info_payload := lit "msp" |};
  authUser := Ok {| user_payload := lit "alice" |};
  getMspHealth := Ok {| health_payload := lit "healthy" |};
  getConnectedAddress := Some alice;
  restoreWalletConnection := Ok (Some alice);
  checkAuth := Ok true;
  getUserProfile := Ok (Some {| user_payload := lit "alice" |})
|}.

(** The MSP cannot be reached. *)
Definition msp_down : Env := {|
  initWasm := Ok tt;
  connectWalletService := Ok (Some alice);
  initPolkadotApi := Ok tt;
  disconnectWallet := Ok tt;
  disconnectMsp := Ok tt;
  connectToMsp := Throw (ErrorObj (lit "connection refused"));
  getMspInfo := Ok {| info_payload := lit "msp" |};
  authUser := Throw NotAnError;
  getMspHealth := Throw (ErrorObj (lit "connection refused"));
  getConnectedAddress := Some alice;
  restoreWalletConnection := Ok (Some alice);
  checkAuth := Ok true;
  getUserProfile := Ok None
|}.

End AppContext.

(** ** components/Layout.tsx *)

Module Layout.

Record NavItem : Type := {
  path : jsstring;
  label : jsstring
}.

Definition navItems : list NavItem := [
  {| path := lit "/"; label := lit "Dashboard" |};
  {| path := lit "/buckets"; label := lit "Buckets" |};
  {| path := lit "/files"; label := lit "Files" |}
].

Definition truncateAddress (addr : jsstring) : jsstring :=
  slice addr 0 (Some 6%Z) ++ lit "..." ++ slice addr (-4) None.

(** [location.pathname === item.path]: the link rendered as current. *)
Definition isCurrent (pathname : jsstring) (item : NavItem) : bool :=
  Js.eqb pathname (path item).



End Layout.

(** * Properties *)

(** ** Strings *)

Module JsFacts.

Lemma trimStart_blank (s : jsstring) :
  forallb is_whitespace s = true -> trimStart s = [].
Proof.
  induction s as [|ch s IH]; simpl; intros H.
  - reflexivity.
  - apply andb_true_iff in H. destruct H as [Hc Hs].
    rewrite Hc. auto.
Qed.

Lemma trimStart_nil_blank (s : jsstring) :
  trimStart s = [] -> forallb is_whitespace s = true.
Proof.
  induction s as [|ch s IH]; simpl; intros H.
  - reflexivity.
  - destruct (is_whitespace ch); [auto | discriminate].
Qed.

Lemma trimStart_suffix (s : jsstring) :
  exists blanks, s = blanks ++ trimStart s /\ forallb is_whitespace blanks = true.
Proof.
  induction s as [|ch s [blanks [E B]]]; simpl.
  - exists []. auto.
  - destruct (is_whitespace ch) eqn:W.
    + exists (ch :: blanks). simpl. rewrite W, B.
      split; [f_equal; exact E | reflexivity].
    + exists []. auto.
Qed.

(** A name is blank for [trim] exactly when all its code units are
    white space. *)
Lemma trim_blank_iff (s : jsstring) :
  truthy (trim s) = false <-> forallb is_whitespace s = true.
Proof.
  unfold trim, trimEnd. split.
  - intros H.
    assert (E : trimStart (rev (trimStart s)) = []).
    { destruct (trimStart (rev (trimStart s))) as [|x l] eqn:E; [reflexivity|].
      destruct (rev (x :: l)) eqn:R; [|discriminate H].
      apply (f_equal (@rev N)) in R. rewrite rev_involutive in R. discriminate R. }
    apply trimStart_nil_blank in E.
    destruct (trimStart_suffix s) as [blanks [Es B]].
    rewrite Es, forallb_app, B. simpl.
    rewrite forallb_forall in E |- *.
    intros x Hx. apply E. apply in_rev. rewrite rev_involutive. exact Hx.
  - intros H. rewrite (trimStart_blank s H). reflexivity.
Qed.

Lemma eqb_eq (a b : jsstring) : Js.eqb a b = true -> a = b.
Proof.
  revert b. induction a as [|x a IH]; intros [|y b]; simpl; intros H;
    try reflexivity; try discriminate H.
  apply andb_true_iff in H. destruct H as [Hx Ha].
  apply N.eqb_eq in Hx. rewrite Hx, (IH b Ha). reflexivity.
Qed.

Lemma eqb_refl (a : jsstring) : Js.eqb a a = true.
Proof.
  induction a as [|x a IH]; simpl; [reflexivity|].
  rewrite N.eqb_refl, IH. reflexivity.
Qed.

Lemma eqb_neq (a b : jsstring) : Js.eqb a b = false -> a <> b.
Proof.
  intros H E. subst b. rewrite eqb_refl in H. discriminate H.
Qed.

(** [s.slice(0, n)] is the first [n] code units, or all of [s]. *)
Lemma slice_prefix (s : jsstring) (n : nat) :
  slice s 0 (Some (Z.of_nat n)) = firstn n s.
Proof.
  unfold slice, relative_index. simpl.
  replace (Z.min 0 (Z.of_nat (List.length s))) with 0%Z by lia.
  destruct (Z.ltb_spec (Z.of_nat n) 0) as [Neg|_]; [lia|]. simpl.
  destruct (Nat.le_ge_cases n (List.length s)) as [Short|Long].
  - f_equal. lia.
  - rewrite (firstn_all2 s Long).
    apply firstn_all2. lia.
Qed.

(** [s.slice(-k)], for a positive [k], is the last [k] code units, or all
    of [s]. *)
Lemma slice_suffix (s : jsstring) (k : nat) :
  0 < k ->
  slice s (- Z.of_nat k) None = skipn (List.length s - k) s.
Proof.
  intros Pos. unfold slice, relative_index.
  destruct (Z.ltb_spec (- Z.of_nat k) 0) as [_|NonNeg]; [|lia].
  replace (Z.to_nat (Z.max (Z.of_nat (List.length s) + - Z.of_nat k) 0))
    with (List.length s - k) by lia.
  apply firstn_all2. rewrite length_skipn. lia.
Qed.

(** A prefix, an ellipsis and a suffix. *)
Lemma ellipsis_length (s : jsstring) (p q : nat) :
  List.length (firstn p s ++ lit "..." ++ skipn (List.length s - q) s) =
    Nat.min p (List.length s) + 3 + Nat.min q (List.length s).
Proof.
  rewrite !length_app, length_firstn, length_skipn.
  change (List.length (lit "...")) with 3. lia.
Qed.

End JsFacts.

(** ** The two interpreters agree *)

Section Interpreters.

Variable I : iface.
Variables world env : Type.
Variable perform : env -> forall e : event I, world -> reply I e * world.

(** Running to completion is advancing to the first [await], letting the
    call settle, and running the rest. *)
Lemma run_advance {R} (v : env) (p : prog I R) (w : world) :
  run perform v p w =
  match advance perform v p w with
  | (Finished r, w1, t) => (r, w1, t)
  | (Suspended e k, w1, t) =>
      let (x, w2) := perform v e w1 in
      let '(r, w3, t') := run perform v (k x) w2 in
      (r, w3, t ++ Settled e (settled_ok I e x) :: t')
  end.
Proof.
  revert w. induction p as [r|e k IH]; intros w; simpl.
  - reflexivity.
  - destruct (awaited I e) eqn:A.
    + simpl. destruct (perform v e w) as [x w1].
      destruct (run perform v (k x) w1) as [[r w2] t]. reflexivity.
    + destruct (perform v e w) as [x w1]. rewrite (IH x w1).
      destruct (advance perform v (k x) w1) as [[[r|e' k'] w2] t].
      * reflexivity.
      * destruct (perform v e' w2) as [x' w3].
        destruct (run perform v (k' x') w3) as [[r w4] t'].
        reflexivity.
Qed.

End Interpreters.

(** ** The Buckets page *)

Module BucketsFacts.

Import Buckets.

Local Abbreviation did := (@Did I).
Local Abbreviation invoked := (@Invoked I).
Local Abbreviation settled := (@Settled I).

(** Unfold a run of a handler down to the answers of its environment. *)
Ltac unfold_run :=
  unfold createRun, deleteRun, execute, start, continue,
    handleCreateBucket, handleDeleteBucket, loadBuckets, fresh,
    outcome, final, events;
  cbn.

(** Case analysis on the next answer the run is waiting for. *)
Ltac answer x := destruct x eqn:?; cbn in *.

(** Settle membership of an entry in a computed trace. *)
Ltac absent :=
  repeat match goal with
         | H : _ \/ _ |- _ => destruct H as [H|H]
         | H : @eq (entry _) _ _ |- _ => discriminate H
         | H : @eq ev _ _ |- _ => discriminate H
         | H : False |- _ => destruct H
         end.

(** *** Blank names *)

(** C6. For a bucket name that is empty or made of white space only,
    [handleCreateBucket] returns right after [e.preventDefault()]: it
    issues no call, [createBucket] in particular, arms no timer, and
    leaves every cell of the state, [createProgress] among them, as it
    was. *)
Theorem blank_name_is_ignored (v : Env) (c : State) :
  forallb is_whitespace (bucketName c) = true ->
  events (createRun v c) = [did PreventDefault] /\
  calls (events (createRun v c)) = [] /\
  final (createRun v c) = fresh c /\
  createProgress (state (final (createRun v c))) = createProgress c.
Proof.
  intros Blank. apply JsFacts.trim_blank_iff in Blank.
  unfold_run. rewrite Blank. cbn. auto.
Qed.

Lemma blank_name_is_ignored_witness :
  let c := typed true (lit "  ") in
  forallb is_whitespace (bucketName c) = true /\
  events (createRun all_well c) = [did PreventDefault] /\
  calls (events (createRun all_well c)) = [] /\
  final (createRun all_well c) = fresh c /\
  createProgress (state (final (createRun all_well c))) = createProgress c.
Proof.
  split; [reflexivity | apply blank_name_is_ignored; reflexivity].
Defined.

(** *** A successful creation *)

(** C1. In a run of [handleCreateBucket] in which [createBucket],
    [verifyBucketCreation] and [waitForBackendBucketReady] are called and
    return, the values passed to [setCreateProgress] carry the steps
    creating, verifying, waiting, done, in this order and each once; the
    handler resolves, having armed the one timer that puts the progress
    back to idle two seconds later. *)
Theorem successful_creation_phases (v : Env) (c : State) (n id id' : jsstring) :
  In (settled (CreateBucket n) true) (events (createRun v c)) ->
  In (settled (VerifyBucketCreation id) true) (events (createRun v c)) ->
  In (settled (WaitForBackendBucketReady id') true) (events (createRun v c)) ->
  phases (events (createRun v c)) = [creating; verifying; waiting; done] /\
  NoDup (phases (events (createRun v c))) /\
  outcome (createRun v c) = Ok tt /\
  timers (final (createRun v c)) =
    [(2000%N, [setCreateProgress {| step := idle; message := [] |}])].
Proof.
  unfold_run.
  answer (truthy (trim (bucketName c))); [|intros; absent].
  answer (createBucket v (bucketName c)); [|intros; absent].
  answer (verifyBucketCreation v a); [|intros; absent].
  answer (waitForBackendBucketReady v a); [|intros; absent].
  intros _ _ _.
  assert (Distinct : NoDup [creating; verifying; waiting; done]).
  { repeat constructor; simpl; intuition discriminate. }
  answer (isMspConnected c); [answer (getBucketsFromMSP v)|]; auto.
Qed.

Lemma successful_creation_phases_witness :
  let x := createRun all_well (typed true docs) in
  (In (settled (CreateBucket docs) true) (events x) /\
   In (settled (VerifyBucketCreation B1) true) (events x) /\
   In (settled (WaitForBackendBucketReady B1) true) (events x)) /\
  phases (events x) = [creating; verifying; waiting; done] /\
  NoDup (phases (events x)) /\
  outcome x = Ok tt /\
  timers (final x) =
    [(2000%N, [setCreateProgress {| step := idle; message := [] |}])].
Proof.
  split; [vm_compute; tauto|].
  apply (@successful_creation_phases all_well (typed true docs) docs B1 B1);
    vm_compute; tauto.
Defined.

(** When the timer armed by a successful creation fires, the progress is
    back at idle with an empty message, whatever happened in between. *)
Remark timer_resets_progress (s : State) :
  createProgress (fire [setCreateProgress {| step := idle; message := [] |}] s) =
    {| step := idle; message := [] |}.
Proof. destruct s. reflexivity. Qed.

(** *** A rejected submission *)

(** C3. When [createBucket] throws, the run of [handleCreateBucket] ends
    there: [createBucket] is the only call issued, so neither
    [verifyBucketCreation] nor [waitForBackendBucketReady] is invoked, the
    steps reported are creating and then error, and the progress is left
    at the error step with the message of the failure. *)
Theorem rejected_submission_stops (v : Env) (c : State) (err : thrown) :
  truthy (trim (bucketName c)) = true ->
  createBucket v (bucketName c) = Throw err ->
  calls (events (createRun v c)) = [CreateBucket (bucketName c)] /\
  (forall id, ~ In (invoked (VerifyBucketCreation id)) (events (createRun v c))) /\
  (forall id, ~ In (invoked (WaitForBackendBucketReady id)) (events (createRun v c))) /\
  phases (events (createRun v c)) = [creating; error] /\
  createProgress (state (final (createRun v c))) =
    {| step := error; message := message_or (lit "Failed to create bucket") err |}.
Proof.
  intros Name Create. unfold_run. rewrite Name. cbn. rewrite Create. cbn.
  repeat split; try (intros id H; absent).
  destruct c; reflexivity.
Qed.

Lemma rejected_submission_stops_witness :
  let v := rejected (ErrorObj (lit "insufficient balance")) in
  let x := createRun v (typed true docs) in
  (truthy (trim docs) = true /\
   createBucket v docs = Throw (ErrorObj (lit "insufficient balance"))) /\
  calls (events x) = [CreateBucket docs] /\
  (forall id, ~ In (invoked (VerifyBucketCreation id)) (events x)) /\
  (forall id, ~ In (invoked (WaitForBackendBucketReady id)) (events x)) /\
  phases (events x) = [creating; error] /\
  createProgress (state (final x)) =
    {| step := error; message := lit "insufficient balance" |}.
Proof.
  split; [split; reflexivity|].
  exact (@rejected_submission_stops
           (rejected (ErrorObj (lit "insufficient balance"))) (typed true docs)
           (ErrorObj (lit "insufficient balance")) eq_refl eq_refl).
Defined.

(** *** Completion and backend readiness *)

(** C2. [handleCreateBucket] reports the done step only right after
    [waitForBackendBucketReady] has returned for the bucket id that
    [createBucket] delivered, and reports it once.  So whatever a
    successful return of [waitForBackendBucketReady] guarantees about a
    bucket ([Consistent]: its backend view has been seen to agree with the
    ledger) holds of the created bucket when done is reported.  The
    handler resolves to no value, so it hands no result to its caller,
    consistent or not. *)
Theorem done_only_after_backend_ready
    (Consistent : jsstring -> Prop) (v : Env) (c : State) :
  (forall id, waitForBackendBucketReady v id = Ok tt -> Consistent id) ->
  In done (phases (events (createRun v c))) ->
  exists id pre post,
    createBucket v (bucketName c) = Ok id /\
    Consistent id /\
    events (createRun v c) =
      pre ++ settled (WaitForBackendBucketReady id) true
          :: did (Set_ (setCreateProgress
                  {| step := done; message := lit "Bucket created successfully!" |}))
          :: post /\
    ~ In done (phases pre) /\
    ~ In done (phases post) /\
    outcome (createRun v c) = Ok tt.
Proof.
  intros Contract. unfold_run.
  answer (truthy (trim (bucketName c))); [|intros; absent].
  answer (createBucket v (bucketName c));
    [|intros H; repeat destruct H as [H|H]; try discriminate H; destruct H].
  answer (verifyBucketCreation v a);
    [|intros H; repeat destruct H as [H|H]; try discriminate H; destruct H].
  destruct (waitForBackendBucketReady v a) as [[]|err] eqn:Ready; cbn;
    [|intros H; repeat destruct H as [H|H]; try discriminate H; destruct H].
  intros _.
  exists a.
  exists [did PreventDefault; did (Set_ (setError None));
          did (Set_ (setCreateProgress
                 {| step := creating; message := lit "Creating bucket on-chain..." |}));
          invoked (CreateBucket (bucketName c));
          settled (CreateBucket (bucketName c)) true;
          did (Set_ (setCreateProgress
                 {| step := verifying; message := lit "Verifying bucket on-chain..." |}));
          invoked (VerifyBucketCreation a);
          settled (VerifyBucketCreation a) true;
          did (Set_ (setCreateProgress
                 {| step := waiting; message := lit "Waiting for backend to index..." |}));
          invoked (WaitForBackendBucketReady a)].
  assert (Early : ~ In done [creating; verifying; waiting]).
  { simpl. intuition discriminate. }
  answer (isMspConnected c); [answer (getBucketsFromMSP v)|];
    eexists; (split; [reflexivity|]); (split; [auto|]);
    (split; [reflexivity|]); (split; [exact Early|]);
    (split; [simpl; tauto | reflexivity]).
Qed.

Lemma done_only_after_backend_ready_witness :
  let v := ready_for_B1 in
  let c := typed true docs in
  ((forall id, waitForBackendBucketReady v id = Ok tt -> id = B1) /\
   In done (phases (events (createRun v c)))) /\
  exists id pre post,
    createBucket v (bucketName c) = Ok id /\
    id = B1 /\
    events (createRun v c) =
      pre ++ settled (WaitForBackendBucketReady id) true
          :: did (Set_ (setCreateProgress
                  {| step := done; message := lit "Bucket created successfully!" |}))
          :: post /\
    ~ In done (phases pre) /\
    ~ In done (phases post) /\
    outcome (createRun v c) = Ok tt.
Proof.
  assert (Contract : forall id,
             waitForBackendBucketReady ready_for_B1 id = Ok tt -> id = B1).
  { intros id. simpl. destruct (Js.eqb id B1) eqn:E; [|discriminate].
    intros _. apply JsFacts.eqb_eq. exact E. }
  assert (Reported : In done (phases (events (createRun ready_for_B1 (typed true docs))))).
  { vm_compute. tauto. }
  split; [split; [exact Contract | exact Reported]|].
  exact (@done_only_after_backend_ready (fun id => id = B1) ready_for_B1
           (typed true docs) Contract Reported).
Defined.

(** *** Failures *)

(** C5, as stated, fails: [createBucket] throws a value that is not an
    [Error]; the handler catches it and resolves, so no failure reaches
    the caller, and the message shown is the handler's generic one. *)
Lemma failure_is_not_delivered :
  let v := rejected NotAnError in
  let c := typed true docs in
  createFails v c NotAnError /\
  ~ failureDelivered (createRun v c) /\
  outcome (createRun v c) = Ok tt /\
  createProgress (state (final (createRun v c))) =
    {| step := error; message := lit "Failed to create bucket" |}.
Proof.
  cbv zeta. split; [apply fails_submitting; reflexivity|].
  split; [intros [err H]; discriminate H|].
  split; reflexivity.
Qed.

(** C5, amended. When [createBucket], [verifyBucketCreation] or
    [waitForBackendBucketReady] throws, [handleCreateBucket] catches the
    failure: the last progress it reports, which is the progress it
    leaves, has step error and the message of the thrown [Error], or
    "Failed to create bucket" for any other thrown value; the page error
    is set to the same message; no timer is armed; and the handler
    resolves, delivering nothing to its caller. *)
Theorem failure_is_reported (v : Env) (c : State) (err : thrown) :
  createFails v c err ->
  let shown := message_or (lit "Failed to create bucket") err in
  last (reported (events (createRun v c))) (createProgress c) =
    {| step := error; message := shown |} /\
  createProgress (state (final (createRun v c))) =
    {| step := error; message := shown |} /\
  pageError (state (final (createRun v c))) = Some shown /\
  timers (final (createRun v c)) = [] /\
  outcome (createRun v c) = Ok tt.
Proof.
  intros [Name Create | id Name Create Verify | id info Name Create Verify Ready];
    unfold_run; rewrite Name; cbn; rewrite Create; cbn;
    try (rewrite Verify; cbn); try (rewrite Ready; cbn);
    destruct c; repeat split; reflexivity.
Qed.

Lemma failure_is_reported_witness :
  let v := rejected (ErrorObj (lit "insufficient balance")) in
  let c := typed true docs in
  let shown := lit "insufficient balance" in
  createFails v c (ErrorObj (lit "insufficient balance")) /\
  last (reported (events (createRun v c))) (createProgress c) =
    {| step := error; message := shown |} /\
  createProgress (state (final (createRun v c))) =
    {| step := error; message := shown |} /\
  pageError (state (final (createRun v c))) = Some shown /\
  timers (final (createRun v c)) = [] /\
  outcome (createRun v c) = Ok tt.
Proof.
  assert (Fails : createFails (rejected (ErrorObj (lit "insufficient balance")))
                    (typed true docs) (ErrorObj (lit "insufficient balance"))).
  { apply fails_submitting; reflexivity. }
  split; [exact Fails|].
  exact (failure_is_reported Fails).
Defined.

(** *** Refreshing the listing *)

(** C7, as stated, fails: with [isMspConnected] false, [loadBuckets]
    returns at its guard, so a successful creation and a successful
    deletion both end without [getBucketsFromMSP] being called, and the
    listing stays as it was. *)
Lemma listing_not_requeried_when_msp_is_disconnected :
  let c := typed false docs in
  (createSucceeds all_well c B1 /\
   In done (phases (events (createRun all_well c))) /\
   ~ requeried (events (createRun all_well c)) /\
   buckets (state (final (createRun all_well c))) = buckets c) /\
  (deleteSucceeds all_well B1 /\
   ~ requeried (events (deleteRun all_well c B1)) /\
   buckets (state (final (deleteRun all_well c B1))) = buckets c).
Proof.
  cbv zeta. repeat split; try reflexivity.
  - exists B1_info. reflexivity.
  - vm_compute. tauto.
  - unfold requeried. vm_compute. intros H. absent.
  - unfold requeried. vm_compute. intros H. absent.
Qed.

(** C7, amended. After a successful creation, once done is reported, and
    after a successful deletion, the handler calls [loadBuckets] before it
    returns.  With [isMspConnected] true this queries [getBucketsFromMSP]
    as the last call of the run, and [buckets] becomes what the query
    returns, or stays as it was when the query throws; with
    [isMspConnected] false nothing is queried.  The handlers write
    [buckets] in no other way. *)
Theorem listing_requeried_when_msp_is_connected
    (v : Env) (c : State) (id : jsstring) :
  (createSucceeds v c id ->
   calls (events (createRun v c)) =
     [CreateBucket (bucketName c); VerifyBucketCreation id;
      WaitForBackendBucketReady id] ++ refreshCalls c /\
   listingWrites (events (createRun v c)) = refreshWrites v c /\
   buckets (state (final (createRun v c))) = refreshed v c) /\
  (deleteSucceeds v id ->
   calls (events (deleteRun v c id)) = DeleteBucket id :: refreshCalls c /\
   listingWrites (events (deleteRun v c id)) = refreshWrites v c /\
   buckets (state (final (deleteRun v c id))) = refreshed v c).
Proof.
  unfold refreshCalls, refreshWrites, refreshed. split.
  - intros (Name & Create & [info Verify] & Ready).
    unfold_run. rewrite Name. cbn. rewrite Create. cbn.
    rewrite Verify. cbn. rewrite Ready. cbn.
    destruct c; cbn in *.
    answer isMspConnected0; [answer (getBucketsFromMSP v)|]; auto.
  - intros (Yes & Delete).
    unfold_run. rewrite Yes. cbn. rewrite Delete. cbn.
    destruct c; cbn in *.
    answer isMspConnected0; [answer (getBucketsFromMSP v)|];
      destruct (is_selected selectedBucketId0 id); auto.
Qed.

Lemma listing_requeried_when_msp_is_connected_witness :
  let v := all_well in
  let c := typed true docs in
  (createSucceeds v c B1 /\
   calls (events (createRun v c)) =
     [CreateBucket docs; VerifyBucketCreation B1;
      WaitForBackendBucketReady B1; GetBucketsFromMSP] /\
   listingWrites (events (createRun v c)) = [[B1_listed]] /\
   buckets (state (final (createRun v c))) = [B1_listed]) /\
  (deleteSucceeds v B1 /\
   calls (events (deleteRun v c B1)) = [DeleteBucket B1; GetBucketsFromMSP] /\
   listingWrites (events (deleteRun v c B1)) = [[B1_listed]] /\
   buckets (state (final (deleteRun v c B1))) = [B1_listed]).
Proof.
  assert (Created : createSucceeds all_well (typed true docs) B1).
  { repeat split; try reflexivity. exists B1_info. reflexivity. }
  assert (Deleted : deleteSucceeds all_well B1).
  { split; reflexivity. }
  destruct (listing_requeried_when_msp_is_connected all_well (typed true docs) B1)
    as [OnCreate OnDelete].
  split.
  - split; [exact Created | exact (OnCreate Created)].
  - split; [exact Deleted | exact (OnDelete Deleted)].
Defined.

(** *** Invocations in flight *)

(** C4, as stated, fails: a deletion of bucket B1 is in flight, waiting
    on [deleteBucket]; a second deletion of B1 is started.  It is not
    turned away: it issues its own [deleteBucket] call and waits on it,
    and both invocations resolve when their calls settle.  The same for
    two submissions of the form with the same name. *)
Lemma second_invocation_is_not_turned_away :
  let v := all_well in
  let c := typed true docs in
  (let first := start v (handleDeleteBucket c B1) (fresh c) in
   let second := start v (handleDeleteBucket (state (final first)) B1) (final first) in
   let first' := continue v (outcome first) (final second) in
   let second' := continue v (outcome second) (final first') in
   awaiting (outcome first) = Some (DeleteBucket B1) /\
   ~ turnedAway second /\
   awaiting (outcome second) = Some (DeleteBucket B1) /\
   calls (events first ++ events second) = [DeleteBucket B1; DeleteBucket B1] /\
   awaiting (outcome first') = Some GetBucketsFromMSP /\
   awaiting (outcome second') = Some GetBucketsFromMSP) /\
  (let first := start v (handleCreateBucket c) (fresh c) in
   let second := start v (handleCreateBucket (state (final first))) (final first) in
   awaiting (outcome first) = Some (CreateBucket docs) /\
   ~ turnedAway second /\
   awaiting (outcome second) = Some (CreateBucket docs) /\
   calls (events first ++ events second) = [CreateBucket docs; CreateBucket docs]).
Proof.
  cbv zeta. unfold turnedAway.
  repeat split; try reflexivity;
    intros [[err H] _]; vm_compute in H; discriminate H.
Qed.

(** C4, amended. The handlers take no lease and know no conflict
    failure: whatever the state of the page and whatever else is in
    flight, [handleDeleteBucket], once the user confirms, issues
    [deleteBucket] and waits on it, and [handleCreateBucket], for a name
    that is not blank, issues [createBucket] and waits on it.  What keeps a
    second submission away is the form: from the start of
    [handleCreateBucket] the progress is in a step that disables the
    submit button. *)
Theorem invocations_do_not_exclude_each_other
    (v : Env) (c : State) (w : World) (id : jsstring) :
  (confirm v (lit "Are you sure you want to delete this bucket?") = true ->
   awaiting (outcome (start v (handleDeleteBucket c id) w)) = Some (DeleteBucket id) /\
   calls (events (start v (handleDeleteBucket c id) w)) = [DeleteBucket id]) /\
  (truthy (trim (bucketName c)) = true ->
   awaiting (outcome (start v (handleCreateBucket c) w)) =
     Some (CreateBucket (bucketName c)) /\
   calls (events (start v (handleCreateBucket c) w)) = [CreateBucket (bucketName c)] /\
   step (createProgress (state (final (start v (handleCreateBucket c) w)))) = creating /\
   submitDisabled (state (final (start v (handleCreateBucket c) w))) = true).
Proof.
  split.
  - intros Yes. unfold_run. rewrite Yes. cbn. auto.
  - intros Name. unfold_run. rewrite Name. cbn.
    destruct w as [s tm]. destruct s. cbn.
    repeat split. unfold submitDisabled, inProgress. cbn.
    apply orb_true_r.
Qed.

Lemma invocations_do_not_exclude_each_other_witness :
  let v := all_well in
  let c := typed true docs in
  let w := final (start v (handleCreateBucket c) (fresh c)) in
  (confirm v (lit "Are you sure you want to delete this bucket?") = true /\
   awaiting (outcome (start v (handleDeleteBucket c B1) w)) = Some (DeleteBucket B1) /\
   calls (events (start v (handleDeleteBucket c B1) w)) = [DeleteBucket B1]) /\
  (truthy (trim (bucketName c)) = true /\
   awaiting (outcome (start v (handleCreateBucket c) w)) =
     Some (CreateBucket (bucketName c)) /\
   calls (events (start v (handleCreateBucket c) w)) = [CreateBucket (bucketName c)] /\
   step (createProgress (state (final (start v (handleCreateBucket c) w)))) = creating /\
   submitDisabled (state (final (start v (handleCreateBucket c) w))) = true).
Proof.
  cbv zeta.
  destruct (invocations_do_not_exclude_each_other all_well (typed true docs)
              (final (start all_well (handleCreateBucket (typed true docs))
                        (fresh (typed true docs)))) B1)
    as [OnDelete OnCreate].
  split.
  - split; [reflexivity | exact (OnDelete eq_refl)].
  - split; [reflexivity | exact (OnCreate eq_refl)].
Defined.

(** *** The progress stepper *)

(** C9. [getProgressSteps] returns, for every state, the four steps with
    their labels.  For the steps creating, verifying, waiting and done,
    of index 0 to 3, the steps before the index are completed, the one at
    the index is active and the ones after it are pending; for idle and
    for error all four are pending.  So at most one step is active or
    failed, and none is ever failed. *)
Theorem progress_steps_table (c : State) :
  map label (getProgressSteps c) =
    [lit "Creating bucket on-chain..."; lit "Verifying on-chain...";
     lit "Waiting for backend..."; lit "Done!"] /\
  map status (getProgressSteps c) =
    match step (createProgress c) with
    | idle => [pending; pending; pending; pending]
    | creating => [active; pending; pending; pending]
    | verifying => [completed; active; pending; pending]
    | waiting => [completed; completed; active; pending]
    | done => [completed; completed; completed; active]
    | error => [pending; pending; pending; pending]
    end /\
  List.length (getProgressSteps c) = 4 /\
  List.length (filter highlighted (map status (getProgressSteps c))) <= 1 /\
  Forall (fun s => status s <> error_status) (getProgressSteps c).
Proof.
  destruct c as [? ? ? ? ? ? ? ? ? ? [[] msg]]; cbn;
    repeat split; try lia;
    repeat constructor; discriminate.
Qed.

(** The row of the table for a creation waiting on the backend. *)
Example progress_steps_while_waiting :
  getProgressSteps
    (apply_setter
       (setCreateProgress
          {| step := waiting; message := lit "Waiting for backend to index..." |})
       (typed true docs)) =
    [ {| label := lit "Creating bucket on-chain..."; status := completed |};
      {| label := lit "Verifying on-chain..."; status := completed |};
      {| label := lit "Waiting for backend..."; status := active |};
      {| label := lit "Done!"; status := pending |} ].
Proof. reflexivity. Qed.

(** *** Shortened hashes *)

Lemma slice_prefix_10 (s : jsstring) : slice s 0 (Some 10%Z) = firstn 10 s.
Proof. exact (JsFacts.slice_prefix s 10). Qed.

Lemma slice_suffix_8 (s : jsstring) : slice s (-8) None = skipn (List.length s - 8) s.
Proof. apply (JsFacts.slice_suffix s (k:=8)). lia. Qed.

(** X11. [truncateHash] shows the first ten and the last eight code units of a
    hash around an ellipsis, each being the whole hash when the hash is
    shorter.  It shows 21 code units at most, and what it shows is shorter
    than the hash only for a hash of more than 21 code units. *)
Theorem truncateHash_shape (hash : jsstring) :
  truncateHash hash =
    firstn 10 hash ++ lit "..." ++ skipn (List.length hash - 8) hash /\
  List.length (truncateHash hash) =
    Nat.min 10 (List.length hash) + 3 + Nat.min 8 (List.length hash) /\
  (List.length (truncateHash hash) < List.length hash <-> 21 < List.length hash).
Proof.
  assert (Shape : truncateHash hash =
            firstn 10 hash ++ lit "..." ++ skipn (List.length hash - 8) hash).
  { unfold truncateHash.
    rewrite (slice_prefix_10 hash), (slice_suffix_8 hash). reflexivity. }
  rewrite Shape, JsFacts.ellipsis_length. repeat split; lia.
Qed.

(** *** Loading the listing *)

Ltac unfold_more :=
  unfold execute, suspensions, handleViewBucket, handleCreateBucket,
    handleDeleteBucket, loadBuckets, createRun, deleteRun, fresh,
    outcome, final, events;
  cbn.


(** *** Viewing a bucket *)

(** X2. [handleViewBucket] selects the bucket before it reads it, and ends
    with the loading flag down whatever happens.  When
    [verifyBucketCreation] returns, its answer is what is selected and the
    page error is cleared; when it throws, the page error is set and the
    bucket selected before stays selected, under the new id. *)
Theorem view_bucket_settles (v : Env) (c : State) (w : World) (id : jsstring) :
  let x := execute v (handleViewBucket c id) w in
  outcome x = Ok tt /\
  calls (events x) = [VerifyBucketCreation id] /\
  suspensions v (handleViewBucket c id) w =
    [(VerifyBucketCreation id,
      apply_setter (setError None)
        (apply_setter (setIsLoadingBucketInfo true)
           (apply_setter (setSelectedBucketId (Some id)) (state w))))] /\
  selectedBucketId (state (final x)) = Some id /\
  isLoadingBucketInfo (state (final x)) = false /\
  match verifyBucketCreation v id with
  | Ok info =>
      selectedBucket (state (final x)) = Some info /\
      pageError (state (final x)) = None
  | Throw err =>
      selectedBucket (state (final x)) = selectedBucket (state w) /\
      pageError (state (final x)) =
        Some (message_or (lit "Failed to load bucket info") err)
  end.
Proof.
  destruct w as [s tm]. destruct s. unfold_more.
  destruct (verifyBucketCreation v id) as [info|err]; cbn; repeat split.
Qed.

(** X3. After a failed view of bucket [id], the details card, when a bucket was
    on display before, shows [id] as the bucket id above the owner, the MSP
    and the rest of the bucket displayed before. *)
Theorem failed_view_mixes_details
    (v : Env) (c : State) (id : jsstring) (err : thrown) (shown : BucketInfo) :
  verifyBucketCreation v id = Throw err ->
  selectedBucket c = Some shown ->
  exists card,
    renderDetails (state (final (execute v (handleViewBucket c id) (fresh c)))) =
      Some card /\
    shownBucketId card = Some id /\
    shownUserId card = userId shown /\
    shownMspId card = mspId shown /\
    shownRoot card = when_truthy (root shown).
Proof.
  intros Fails Shown. destruct c. unfold_more. cbn in Shown.
  rewrite Fails. cbn. unfold renderDetails. cbn. rewrite Shown.
  eexists. repeat split.
Qed.

Lemma failed_view_mixes_details_witness :
  verifyBucketCreation chain_down B2 =
    Throw (ErrorObj (lit "Bucket not found on chain")) /\
  selectedBucket viewing_B1 = Some B1_info /\
  exists card,
    renderDetails
      (state (final (execute chain_down (handleViewBucket viewing_B1 B2)
                       (fresh viewing_B1)))) = Some card /\
    shownBucketId card = Some B2 /\
    shownUserId card = userId B1_info /\
    shownMspId card = mspId B1_info /\
    shownRoot card = when_truthy (root B1_info).
Proof.
  split; [reflexivity|]. split; [reflexivity|].
  exact (@failed_view_mixes_details chain_down viewing_B1 B2
           (ErrorObj (lit "Bucket not found on chain")) B1_info eq_refl eq_refl).
Defined.

(** *** Deleting a bucket *)

Lemma is_selected_iff (sel : option jsstring) (id : jsstring) :
  is_selected sel id = true <-> sel = Some id.
Proof.
  destruct sel as [s|]; simpl; split; intros H; try discriminate H.
  - apply JsFacts.eqb_eq in H. congruence.
  - injection H as ->. apply JsFacts.eqb_refl.
Qed.

(** X4. When the user declines the confirmation, [handleDeleteBucket] does
    nothing: no call is issued and the state is as it was. *)
Theorem declined_deletion_does_nothing
    (v : Env) (c : State) (w : World) (id : jsstring) :
  confirm v (lit "Are you sure you want to delete this bucket?") = false ->
  let x := execute v (handleDeleteBucket c id) w in
  outcome x = Ok tt /\
  calls (events x) = [] /\
  final x = w.
Proof.
  intros No. unfold_more. rewrite No. cbn. auto.
Qed.

Lemma declined_deletion_does_nothing_witness :
  let x := execute declining (handleDeleteBucket viewing_B1 B1) (fresh viewing_B1) in
  confirm declining (lit "Are you sure you want to delete this bucket?") = false /\
  outcome x = Ok tt /\
  calls (events x) = [] /\
  final x = fresh viewing_B1.
Proof.
  split; [reflexivity|].
  exact (@declined_deletion_does_nothing declining viewing_B1 (fresh viewing_B1) B1
           eq_refl).
Defined.

(** X5. When [deleteBucket] throws, [handleDeleteBucket] stops there: the
    listing is not queried, the listing and the selection stay, the page
    error is set to the message of the failure, the deleting mark is taken
    down, and the handler resolves. *)
Theorem failed_deletion_keeps_the_page
    (v : Env) (c : State) (id : jsstring) (err : thrown) :
  confirm v (lit "Are you sure you want to delete this bucket?") = true ->
  deleteBucket v id = Throw err ->
  let x := deleteRun v c id in
  outcome x = Ok tt /\
  calls (events x) = [DeleteBucket id] /\
  isDeleting (state (final x)) = None /\
  pageError (state (final x)) = Some (message_or (lit "Failed to delete bucket") err) /\
  buckets (state (final x)) = buckets c /\
  selectedBucket (state (final x)) = selectedBucket c /\
  selectedBucketId (state (final x)) = selectedBucketId c.
Proof.
  intros Yes Fails. destruct c. unfold_more. rewrite Yes. cbn.
  rewrite Fails. cbn. repeat split.
Qed.

Lemma failed_deletion_keeps_the_page_witness :
  let x := deleteRun chain_down viewing_B1 B1 in
  (confirm chain_down (lit "Are you sure you want to delete this bucket?") = true /\
   deleteBucket chain_down B1 = Throw (ErrorObj (lit "transaction failed"))) /\
  outcome x = Ok tt /\
  calls (events x) = [DeleteBucket B1] /\
  isDeleting (state (final x)) = None /\
  pageError (state (final x)) = Some (lit "transaction failed") /\
  buckets (state (final x)) = buckets viewing_B1 /\
  selectedBucket (state (final x)) = selectedBucket viewing_B1 /\
  selectedBucketId (state (final x)) = selectedBucketId viewing_B1.
Proof.
  split; [split; reflexivity|].
  exact (@failed_deletion_keeps_the_page chain_down viewing_B1 B1
           (ErrorObj (lit "transaction failed")) eq_refl eq_refl).
Defined.

(** X6. A successful deletion, run on its own, closes the details card
    exactly when the deleted bucket is the one on display, keeps any other
    selection, and ends with the deleting mark down.  The mark is up, on the
    bucket deleted, at the moment [deleteBucket] is issued, whatever the
    page was like before. *)
Theorem deletion_closes_its_own_details
    (v : Env) (c : State) (w : World) (id : jsstring) :
  deleteSucceeds v id ->
  let x := deleteRun v c id in
  outcome x = Ok tt /\
  isDeleting (state (final (start v (handleDeleteBucket c id) w))) = Some id /\
  isDeleting (state (final x)) = None /\
  (selectedBucketId c = Some id ->
   selectedBucket (state (final x)) = None /\
   selectedBucketId (state (final x)) = None /\
   renderDetails (state (final x)) = None) /\
  (selectedBucketId c <> Some id ->
   selectedBucket (state (final x)) = selectedBucket c /\
   selectedBucketId (state (final x)) = selectedBucketId c).
Proof.
  intros [Yes Deleted].
  pose proof (is_selected_iff (selectedBucketId c) id) as Sel.
  destruct w as [s0 tm0]. destruct s0.
  destruct c. unfold_more. unfold start. cbn. cbn in Sel.
  rewrite Yes. cbn. rewrite Deleted. cbn.
  destruct isMspConnected1; cbn;
    [destruct (getBucketsFromMSP v); cbn|];
    destruct (is_selected selectedBucketId1 id) eqn:Is; cbn;
    (split; [reflexivity|]);
    (split; [reflexivity|]);
    (split; [reflexivity|]);
    split; intros H;
    try (apply Sel in H; discriminate H);
    try (exfalso; apply H; apply Sel; reflexivity);
    repeat split.
Qed.

Lemma deletion_closes_its_own_details_witness :
  let x := deleteRun all_well viewing_B1 B1 in
  deleteSucceeds all_well B1 /\
  selectedBucketId viewing_B1 = Some B1 /\
  outcome x = Ok tt /\
  isDeleting (state (final x)) = None /\
  selectedBucket (state (final x)) = None /\
  selectedBucketId (state (final x)) = None /\
  renderDetails (state (final x)) = None.
Proof.
  assert (Deleted : deleteSucceeds all_well B1) by (split; reflexivity).
  destruct (deletion_closes_its_own_details viewing_B1 (fresh viewing_B1) Deleted)
    as (Resolved & _ & Mark & Own & _).
  destruct (Own eq_refl) as (Info & Id & Card).
  repeat split; assumption.
Defined.

(** *** The form around a creation *)

Local Arguments trim : simpl never.

(** Case analysis on what the page has become during a wait. *)
Ltac disturbed :=
  repeat match goal with
         | |- context [?disturb ?n (Build_World ?s ?tm)] =>
             destruct (disturb n (Build_World s tm)) as [[] ?]; cbn
         end.

Ltac unfold_disturbed :=
  unfold suspensionsUnder, handleViewBucket, handleCreateBucket,
    handleDeleteBucket, loadBuckets;
  cbn.

(** X7. At the moment [handleCreateBucket] issues [createBucket],
    [verifyBucketCreation] or [waitForBackendBucketReady], the name input
    is disabled and the submit button shows as loading; at the moment it
    issues the query of the refresh, they are released.  This holds whatever
    other handlers and timers did to the page while the creation was
    waiting before: each of these calls is issued in the synchronous stretch
    that sets the step. *)
Theorem form_is_held_when_creation_calls_are_issued
    (disturb : nat -> World -> World) (v : Env) (c : State) (w : World) :
  Forall (fun s => inProgress (snd s) = is_creation_call (fst s))
         (suspensionsUnder disturb v (handleCreateBucket c) w).
Proof.
  destruct w as [s tm]. destruct s. unfold_disturbed.
  destruct (truthy (trim (bucketName c))); cbn; [|constructor].
  constructor; [reflexivity|].
  destruct (createBucket v (bucketName c)) as [id|?]; cbn; disturbed;
    [|constructor].
  constructor; [reflexivity|].
  destruct (verifyBucketCreation v id); cbn; disturbed; [|constructor].
  constructor; [reflexivity|].
  destruct (waitForBackendBucketReady v id); cbn; disturbed; [|constructor].
  destruct (isMspConnected c); cbn; [|constructor].
  constructor; [reflexivity|].
  destruct (getBucketsFromMSP v); cbn; disturbed; constructor.
Qed.

(** The hold does not last through a wait: the timer armed by an earlier
    successful creation is never cleared, and when it fires while a new
    creation waits on [createBucket], the progress is back at idle, the
    stepper hidden and the form released. *)
Remark reset_timer_releases_a_waiting_creation
    (v : Env) (c : State) (w : World) :
  truthy (trim (bucketName c)) = true ->
  let waiting_on := start v (handleCreateBucket c) w in
  let reset := [setCreateProgress {| step := idle; message := [] |}] in
  awaiting (outcome waiting_on) = Some (CreateBucket (bucketName c)) /\
  inProgress (state (final waiting_on)) = true /\
  inProgress (fire reset (state (final waiting_on))) = false /\
  stepper (renderForm (fire reset (state (final waiting_on)))) = None.
Proof.
  intros Name. destruct w as [s tm]. destruct s.
  unfold start, handleCreateBucket, outcome, final. cbn. rewrite Name. cbn.
  repeat split.
Qed.

(** X8. After a failed creation the page shows, to an authenticated user: the
    alert with the message of the failure, unless the message is empty; the
    stepper with all four steps pending; and the form with the name as it
    was typed and the submit button enabled, so that the submission can be
    repeated. *)
Theorem page_after_failed_creation (v : Env) (c : State) (err : thrown) :
  createFails v c err ->
  isAuthenticated c = true ->
  exists form,
    render (state (final (createRun v c))) =
      Page (when_truthy (message_or (lit "Failed to create bucket") err))
           form (isLoadingBuckets c) (renderListing c) (renderDetails c) /\
    option_map all_pending (stepper form) = Some true /\
    inputValue form = bucketName c /\
    inputDisabled form = false /\
    submitIsDisabled form = false.
Proof.
  intros Fails Auth.
  assert (Name : truthy (trim (bucketName c)) = true) by (destruct Fails; assumption).
  destruct Fails as [_ Create | id _ Create Verify | id info _ Create Verify Ready];
    unfold_more; rewrite Name; cbn; rewrite Create; cbn;
    try (rewrite Verify; cbn); try (rewrite Ready; cbn);
    destruct c; cbn in *; unfold render; cbn; rewrite Auth; cbn;
    eexists; (split; [reflexivity|]);
    repeat split; cbn; unfold submitDisabled, inProgress; cbn;
    try rewrite Name; reflexivity.
Qed.

Lemma page_after_failed_creation_witness :
  let v := rejected (ErrorObj []) in
  let c := typed true docs in
  (createFails v c (ErrorObj []) /\ isAuthenticated c = true) /\
  exists form,
    render (state (final (createRun v c))) =
      Page None form (isLoadingBuckets c) (renderListing c) (renderDetails c) /\
    option_map all_pending (stepper form) = Some true /\
    inputValue form = bucketName c /\
    inputDisabled form = false /\
    submitIsDisabled form = false.
Proof.
  assert (Fails : createFails (rejected (ErrorObj [])) (typed true docs) (ErrorObj [])).
  { apply fails_submitting; reflexivity. }
  split; [split; [exact Fails | reflexivity]|].
  exact (@page_after_failed_creation (rejected (ErrorObj [])) (typed true docs)
           (ErrorObj []) Fails eq_refl).
Defined.



(** *** Stale errors *)

(** X10. [loadBuckets], [handleViewBucket] and [handleDeleteBucket] clear
    the page error in the synchronous stretch in which they issue each of
    their calls, and [handleCreateBucket] does so for [createBucket] and for
    the query of the refresh: at the moment one of these calls is issued the
    page error is null, whatever error the page carried before and whatever
    other handlers did while the handler was waiting.  [handleCreateBucket]
    does not clear it again before [verifyBucketCreation] and
    [waitForBackendBucketReady]. *)
Theorem no_stale_error_when_calls_are_issued
    (disturb : nat -> World -> World) (v : Env) (c : State) (w : World)
    (id : jsstring) :
  let quiet := Forall (fun s : ev * State => pageError (snd s) = None) in
  quiet (suspensionsUnder disturb v (loadBuckets c) w) /\
  quiet (suspensionsUnder disturb v (handleViewBucket c id) w) /\
  quiet (suspensionsUnder disturb v (handleDeleteBucket c id) w) /\
  Forall (fun s : ev * State =>
            is_later_creation_call (fst s) = false -> pageError (snd s) = None)
         (suspensionsUnder disturb v (handleCreateBucket c) w).
Proof.
  destruct w as [s tm]. destruct s. unfold_disturbed. repeat split.
  - destruct (isMspConnected c); cbn; [|constructor].
    constructor; [reflexivity|].
    destruct (getBucketsFromMSP v); cbn; disturbed; constructor.
  - constructor; [reflexivity|].
    destruct (verifyBucketCreation v id); cbn; disturbed; constructor.
  - destruct (confirm v _); cbn; [|constructor].
    constructor; [reflexivity|].
    destruct (deleteBucket v id); cbn; disturbed; [|constructor].
    destruct (isMspConnected c); cbn;
      [constructor; [reflexivity|];
       destruct (getBucketsFromMSP v); cbn; disturbed|];
      destruct (is_selected (selectedBucketId c) id); cbn; constructor.
  - destruct (truthy (trim (bucketName c))); cbn; [|constructor].
    constructor; [reflexivity|].
    destruct (createBucket v (bucketName c)) as [b|?]; cbn; disturbed;
      [|constructor].
    constructor; [intros H; discriminate H|].
    destruct (verifyBucketCreation v b); cbn; disturbed; [|constructor].
    constructor; [intros H; discriminate H|].
    destruct (waitForBackendBucketReady v b); cbn; disturbed; [|constructor].
    destruct (isMspConnected c); cbn; [|constructor].
    constructor; [reflexivity|].
    destruct (getBucketsFromMSP v); cbn; disturbed; constructor.
Qed.

(** A view failing while a creation waits on [createBucket] leaves its
    error on the page when the creation goes on to issue
    [verifyBucketCreation]. *)
Remark stale_error_at_verification :
  let failed_view (n : nat) (w : World) :=
    final (execute chain_down (handleViewBucket (state w) B2) w) in
  exists s,
    nth_error (suspensionsUnder failed_view all_well
                 (handleCreateBucket (typed true docs)) (fresh (typed true docs))) 1 =
      Some (VerifyBucketCreation B1, s) /\
    pageError s = Some (lit "Bucket not found on chain").
Proof. eexists. split; reflexivity. Qed.

End BucketsFacts.

(** ** The application context *)

Module AppContextFacts.

Import AppContext.

Ltac unfold_op :=
  unfold exec_op, program, connectWallet, disconnect, connectMsp,
    authenticateUser, getMspHealthStatus, forget, clearError,
    restoreSession, ensureWasm;
  cbn.

(** Case analysis on every answer a run is waiting for. *)
Ltac answers :=
  repeat match goal with
         | |- context [match ?x with _ => _ end] =>
             lazymatch x with
             | context [@run] => fail
             | _ => destruct x eqn:?; cbn in *
             end
         end.

Lemma invocations_app (t1 t2 : trace I) :
  initWasm_invocations (t1 ++ t2) = initWasm_invocations t1 + initWasm_invocations t2.
Proof.
  unfold initWasm_invocations. rewrite filter_app, length_app. reflexivity.
Qed.

Lemma completions_app (t1 t2 : trace I) :
  initWasm_completions (t1 ++ t2) = initWasm_completions t1 + initWasm_completions t2.
Proof.
  unfold initWasm_completions. rewrite filter_app, length_app. reflexivity.
Qed.

(** *** The WASM bootstrap *)

(** Once the flag is set, an operation leaves it set and does not call
    [initWasm]. *)
Lemma op_skips_initWasm (o : Op) (v : Env) (w : World) :
  wasmInitialized w = true ->
  wasmInitialized (fst (exec_op o v w)) = true /\
  initWasm_invocations (snd (exec_op o v w)) = 0 /\
  initWasm_completions (snd (exec_op o v w)) = 0.
Proof.
  destruct w as [s l e f]. cbn. intros ->.
  destruct o; unfold_op; answers; auto.
Qed.

(** While the flag is unset, an operation calls [initWasm] at most once,
    and sets the flag exactly when that call returns. *)
Lemma op_sets_flag_on_completion (o : Op) (v : Env) (w : World) :
  wasmInitialized w = false ->
  initWasm_invocations (snd (exec_op o v w)) <= 1 /\
  initWasm_completions (snd (exec_op o v w)) =
    (if wasmInitialized (fst (exec_op o v w)) then 1 else 0).
Proof.
  destruct w as [s l e f]. cbn. intros ->.
  destruct o; unfold_op; answers; auto.
Qed.

Lemma ops_skip_initWasm (ops : list (Op * Env)) (w : World) :
  wasmInitialized w = true ->
  wasmInitialized (fst (run_ops ops w)) = true /\
  initWasm_invocations (snd (run_ops ops w)) = 0 /\
  initWasm_completions (snd (run_ops ops w)) = 0.
Proof.
  revert w. induction ops as [|[o v] ops IH]; intros w Flag; simpl.
  - auto.
  - destruct (op_skips_initWasm o v w Flag) as (Set1 & Inv1 & Com1).
    destruct (exec_op o v w) as [w1 t1]. simpl in *.
    destruct (IH w1 Set1) as (Set2 & Inv2 & Com2).
    destruct (run_ops ops w1) as [w2 t2]. simpl in *.
    rewrite invocations_app, completions_app, Inv1, Inv2, Com1, Com2. auto.
Qed.

Lemma ops_complete_initWasm_once (ops : list (Op * Env)) (w : World) :
  wasmInitialized w = false ->
  initWasm_completions (snd (run_ops ops w)) =
    (if wasmInitialized (fst (run_ops ops w)) then 1 else 0).
Proof.
  revert w. induction ops as [|[o v] ops IH]; intros w Unset; simpl.
  - rewrite Unset. reflexivity.
  - destruct (op_sets_flag_on_completion o v w Unset) as (_ & Com1).
    pose proof (op_skips_initWasm o v w) as Skip.
    pose proof (ops_skip_initWasm ops (fst (exec_op o v w))) as Skips.
    specialize (IH (fst (exec_op o v w))).
    destruct (exec_op o v w) as [w1 t1]. simpl in *.
    destruct (run_ops ops w1) as [w2 t2]. simpl in *.
    rewrite completions_app, Com1.
    destruct (wasmInitialized w1).
    + destruct (Skips eq_refl) as (-> & _ & ->). reflexivity.
    + rewrite (IH eq_refl). reflexivity.
Qed.

(** The check of the flag and its setting are separated by the [await]
    of [initWasm]: a [connectWallet] started while the session restore is
    waiting on [initWasm] finds the flag unset and calls [initWasm] too. *)
Remark initWasm_check_is_not_atomic :
  let restore := advance (I:=I) perform wasm_fails restoreSession initialWorld in
  let connect := advance (I:=I) perform all_well connectWallet (final restore) in
  awaiting (outcome restore) = Some InitWasm /\
  awaiting (outcome connect) = Some InitWasm /\
  initWasm_invocations (events restore ++ events connect) = 2.
Proof. repeat split. Qed.

(** C8, as stated, fails: [initWasm] throws during a first
    [connectWallet], which leaves the flag unset, and a second
    [connectWallet] calls [initWasm] again.  The same when the first call
    is made by the session restore on mount. *)
Lemma initWasm_is_called_again_after_a_failure :
  ~ initWasmCalledAtMostOnce [(OpConnectWallet, wasm_fails); (OpConnectWallet, all_well)] /\
  ~ initWasmCalledAtMostOnce [(OpRestoreSession, wasm_fails); (OpConnectWallet, all_well)] /\
  initWasm_invocations
    (history [(OpConnectWallet, wasm_fails); (OpConnectWallet, all_well)]) = 2.
Proof.
  unfold initWasmCalledAtMostOnce. repeat split; vm_compute; lia.
Qed.

(** C8, amended. Over every sequence of operations of the provider, each
    run to completion before the next starts, [initWasm] returns at most
    once, and it has returned exactly when [wasmInitialized] is set;
    once the flag is set, no later operation calls [initWasm] and the flag
    stays set.  A call of [initWasm] that throws leaves the flag unset, so
    the next [connectWallet] or session restore calls it again. *)
Theorem initWasm_completes_at_most_once (ops later : list (Op * Env)) :
  let w := fst (run_ops ops initialWorld) in
  initWasm_completions (history ops) <= 1 /\
  (initWasm_completions (history ops) = 1 <-> wasmInitialized w = true) /\
  (wasmInitialized w = true ->
   initWasm_invocations (snd (run_ops later w)) = 0 /\
   wasmInitialized (fst (run_ops later w)) = true).
Proof.
  cbv zeta. unfold history.
  rewrite (ops_complete_initWasm_once ops initialWorld eq_refl).
  destruct (wasmInitialized (fst (run_ops ops initialWorld))) eqn:Flag.
  - repeat split; auto; apply (ops_skip_initWasm later _ Flag).
  - repeat split; auto; discriminate.
Qed.

Lemma initWasm_completes_at_most_once_witness :
  let ops := [(OpConnectWallet, wasm_fails); (OpConnectWallet, all_well)] in
  let later := [(OpRestoreSession, wasm_fails); (OpConnectWallet, all_well)] in
  let w := fst (run_ops ops initialWorld) in
  wasmInitialized w = true /\
  initWasm_completions (history ops) = 1 /\
  initWasm_invocations (snd (run_ops later w)) = 0 /\
  wasmInitialized (fst (run_ops later w)) = true.
Proof.
  cbv zeta.
  destruct (initWasm_completes_at_most_once
              [(OpConnectWallet, wasm_fails); (OpConnectWallet, all_well)]
              [(OpRestoreSession, wasm_fails); (OpConnectWallet, all_well)])
    as (_ & Once & Later).
  split; [reflexivity|].
  split; [apply Once; reflexivity|].
  exact (Later eq_refl).
Defined.

(** *** The connected wallet *)

Lemma truthy_is_not_null (a : option jsstring) :
  truthy_opt a = true -> a <> None.
Proof. destruct a; [discriminate | intros H; discriminate H]. Qed.


(** Every update such an operation makes to the state keeps it, on
    whatever state the update lands: the invariant does not depend on
    operations running one at a time. *)
Lemma every_update_keeps_address (o : Op) (v : Env) (w : World)
    (f : AppState -> AppState) :
  answersAddress v ->
  In (Did (I:=I) (SetState f)) (snd (exec_op o v w)) ->
  forall s, connectedHasAddress s -> connectedHasAddress (f s).
Proof.
  destruct w as [s0 l e fl]. unfold connectedHasAddress, answersAddress.
  intros Answers.
  destruct o; unfold_op; answers; intros H;
    repeat match goal with
           | H : _ \/ _ |- _ => destruct H as [H|H]
           | H : False |- _ => destruct H
           | H : @eq (entry _) _ _ |- _ =>
               first [discriminate H | injection H as <-]
           end;
    cbn; intros s Inv; auto; try discriminate; intros _;
    try (intros Null; apply Answers; rewrite Null; reflexivity);
    apply truthy_is_not_null;
    match goal with
    | H : negb (truthy_opt ?a) = false |- truthy_opt ?a = true =>
        apply negb_false_iff in H; exact H
    end.
Qed.


(** A page can be authenticated while the MSP is not flagged connected:
    [authenticateUser] does not look at [isMspConnected]. *)
Remark authenticated_without_msp :
  let w := fst (exec_op OpAuthenticateUser all_well initialWorld) in
  reachable w /\
  isAuthenticated (state w) = true /\
  isMspConnected (state w) = false.
Proof.
  cbv zeta. repeat split. apply reach_op. apply reach_initial.
Qed.




(** *** Flags and what the state holds *)

Ltac unfold_more :=
  unfold opRun, exec_op, program, connectWallet, disconnect, connectMsp,
    authenticateUser, getMspHealthStatus, forget, clearError,
    restoreSession, ensureWasm, outcome, final, events;
  cbn.

Lemma op_keeps_flags (o : Op) (v : Env) (w : World) :
  flagsMatchPayloads (state w) ->
  flagsMatchPayloads (state (fst (exec_op o v w))).
Proof.
  destruct w as [s l e f]. unfold flagsMatchPayloads. cbn.
  intros (Msp & Wallet & User).
  destruct o; unfold_op; answers; cbn;
    try (split; [exact Msp | split; [exact Wallet | exact User]]);
    repeat split; intros; try discriminate; try reflexivity; auto;
    try (apply Msp; assumption).
Qed.

(** X12. In every state of the provider reached from the initial one,
    [isMspConnected] is true exactly when the MSP info is present, an
    address is present only with [isWalletConnected], and a user profile
    only with [isAuthenticated]. *)
Theorem flags_match_payloads (w : World) :
  reachable w -> flagsMatchPayloads (state w).
Proof.
  induction 1 as [|o v w Reach IH].
  - unfold flagsMatchPayloads. cbn.
    repeat split; intros H; try discriminate H; exfalso; apply H; reflexivity.
  - apply op_keeps_flags. exact IH.
Qed.

Lemma flags_match_payloads_witness :
  let w := fst (exec_op OpRestoreSession session_persisted initialWorld) in
  reachable w /\
  isMspConnected (state w) = true /\
  flagsMatchPayloads (state w).
Proof.
  cbv zeta.
  assert (Reach : reachable (fst (exec_op OpRestoreSession session_persisted initialWorld))).
  { apply reach_op. apply reach_initial. }
  split; [exact Reach|]. split; [reflexivity|].
  exact (flags_match_payloads Reach).
Defined.

(** *** Loading and errors *)

(** X13. Each of [connectWallet], [connectMsp] and [authenticateUser]
    raises the loading flag and clears the error before it issues its first
    call, whatever the provider was like.  Run on its own, it ends with the
    loading flag down; if it returns, the error is still cleared; if it
    throws, it throws what its collaborator threw, the error holds the
    message of that (or the fallback of the action), and the state is the
    one it started from. *)
Theorem guarded_action_reports (o : Op) (m : jsstring) (v : Env) (w : World) :
  fallbackMessage o = Some m ->
  let first := advance (I:=I) perform v (program o) w in
  let x := opRun o v w in
  (isLoading (final first) = true /\ error (final first) = None) /\
  isLoading (final x) = false /\
  match outcome x with
  | Ok _ => error (final x) = None
  | Throw err =>
      thrownBy v err /\
      error (final x) = Some (message_or m err) /\
      state (final x) = state w
  end.
Proof.
  destruct w as [s l e f]. unfold thrownBy.
  destruct o; intros M; try discriminate M; injection M as <-;
    unfold_more;
    (split; [try (destruct f); cbn; split; reflexivity|]);
    answers; cbn; repeat split; auto 10.
Qed.

Lemma guarded_action_reports_witness :
  let x := opRun OpConnectMsp msp_down initialWorld in
  fallbackMessage OpConnectMsp = Some (lit "Failed to connect to MSP") /\
  outcome x = Throw (ErrorObj (lit "connection refused")) /\
  isLoading (final x) = false /\
  error (final x) = Some (lit "connection refused") /\
  state (final x) = initialState.
Proof.
  cbv zeta.
  destruct (@guarded_action_reports OpConnectMsp (lit "Failed to connect to MSP")
              msp_down initialWorld eq_refl) as (_ & Loading & Report).
  change (outcome (opRun OpConnectMsp msp_down initialWorld))
    with (@Throw unit (ErrorObj (lit "connection refused"))) in Report.
  destruct Report as (_ & Error & State).
  repeat split; assumption.
Defined.

Lemma op_ends_loading (o : Op) (v : Env) (w : World) :
  isLoading w = false -> isLoading (fst (exec_op o v w)) = false.
Proof.
  destruct w as [s l e f]. cbn. intros ->.
  destruct o; unfold_op; answers; reflexivity.
Qed.

(** X14. Between operations run one after the other the provider never shows
    as loading. *)
Theorem loading_is_over_between_operations (w : World) :
  reachable w -> isLoading w = false.
Proof.
  induction 1 as [|o v w Reach IH]; [reflexivity|].
  apply op_ends_loading. exact IH.
Qed.

Lemma loading_is_over_between_operations_witness :
  let w := fst (exec_op OpConnectMsp msp_down initialWorld) in
  reachable w /\ error w = Some (lit "connection refused") /\ isLoading w = false.
Proof.
  cbv zeta.
  assert (Reach : reachable (fst (exec_op OpConnectMsp msp_down initialWorld))).
  { apply reach_op. apply reach_initial. }
  split; [exact Reach|]. split; [reflexivity|].
  exact (loading_is_over_between_operations Reach).
Defined.

(** X15. [getMspHealthStatus] hands on what [getMspHealth] answers, a value or
    a failure.  It leaves the state, the loading flag and the WASM flag
    alone; the error is set to the message of a failure and is left as it
    was, not cleared, on success. *)
Theorem health_status_passes_through (v : Env) (w : World) :
  let x := run (I:=I) perform v getMspHealthStatus w in
  outcome x = getMspHealth v /\
  calls (events x) = [GetMspHealth] /\
  state (final x) = state w /\
  isLoading (final x) = isLoading w /\
  wasmInitialized (final x) = wasmInitialized w /\
  error (final x) =
    match getMspHealth v with
    | Ok _ => error w
    | Throw err => Some (message_or (lit "Failed to get MSP health") err)
    end.
Proof.
  destruct w as [s l e f]. unfold_more.
  destruct (getMspHealth v); cbn; repeat split.
Qed.

(** *** Restoring the session *)

(** X16. The session restore never throws and never touches the error,
    whatever fails on its way.  Without a persisted address it calls
    nothing and changes nothing; with one, it ends with the loading flag
    down. *)
Theorem restore_is_silent (v : Env) (w : World) :
  let x := opRun OpRestoreSession v w in
  outcome x = Ok tt /\
  error (final x) = error w /\
  if truthy_opt (getConnectedAddress v)
  then isLoading (final x) = false
  else final x = w /\ calls (events x) = [].
Proof.
  destruct w as [s l e f]. unfold_more.
  destruct (truthy_opt (getConnectedAddress v)); cbn; [|auto].
  answers; repeat split.
Qed.

(** X17. On mount, from the initial state, the restore leaves one of three
    states: the initial one; the wallet connected under a non-empty
    address and nothing else; or wallet, MSP and authentication all
    flagged, with the address, the MSP info, and the stored profile, which
    may be missing. *)
Theorem restore_on_mount_shape (v : Env) :
  restoredShape (state (final (opRun OpRestoreSession v initialWorld))).
Proof.
  unfold_more. answers;
    try (apply restored_nothing; reflexivity);
    match goal with
    | H : negb (truthy_opt ?r) = false |- _ =>
        is_var r; destruct r as [restored|]; [|discriminate H];
        apply negb_false_iff in H; cbn in H
    end;
    first [ eapply restored_session; [eassumption | reflexivity]
          | eapply restored_wallet; [eassumption | reflexivity] ].
Qed.

(** *** The chain client and the WASM module *)

(** X18. No operation calls into the chain client ([connectWalletService],
    [restoreWalletConnection], [initPolkadotApi]) while [wasmInitialized]
    is unset: wherever an operation starts, the flag is set whenever it is
    suspended on one of these calls. *)
Theorem chain_client_waits_for_wasm (o : Op) (v : Env) (w : World) :
  Forall (fun s => needsWasm (fst s) = true -> wasmInitialized (snd s) = true)
         (snapshots (I:=I) perform v (program o) w).
Proof.
  destruct w as [s l e f].
  destruct o; unfold_more; answers;
    repeat (constructor; cbn; try (intros; first [reflexivity | discriminate]));
    intros _; match goal with H : negb ?b = false |- ?b = true =>
                apply negb_false_iff in H; exact H end.
Qed.

End AppContextFacts.


(** ** The layout *)

Module LayoutFacts.

Import Layout.

(** X19. [truncateAddress] shows the first six and the last four code units of
    an address around an ellipsis: 13 code units at most, and fewer than
    the address has only for an address of more than 13. *)
Theorem truncateAddress_shape (addr : jsstring) :
  truncateAddress addr =
    firstn 6 addr ++ lit "..." ++ skipn (List.length addr - 4) addr /\
  List.length (truncateAddress addr) =
    Nat.min 6 (List.length addr) + 3 + Nat.min 4 (List.length addr) /\
  (List.length (truncateAddress addr) < List.length addr <-> 13 < List.length addr).
Proof.
  assert (Shape : truncateAddress addr =
            firstn 6 addr ++ lit "..." ++ skipn (List.length addr - 4) addr).
  { unfold truncateAddress.
    change (slice addr 0 (Some 6%Z)) with (slice addr 0 (Some (Z.of_nat 6))).
    change (slice addr (-4) None) with (slice addr (- Z.of_nat 4) None).
    rewrite JsFacts.slice_prefix, JsFacts.slice_suffix by lia. reflexivity. }
  rewrite Shape, JsFacts.ellipsis_length. repeat split; lia.
Qed.

(** X20. The link of the navigation bar rendered as the current one is
    "Dashboard" when the path name is "/", "Buckets" when it is "/buckets",
    "Files" when it is "/files", and none for any other path name: never
    more than one. *)
Theorem one_current_link (pathname : jsstring) :
  map label (filter (isCurrent pathname) navItems) =
    (if Js.eqb pathname (lit "/") then [lit "Dashboard"]
     else if Js.eqb pathname (lit "/buckets") then [lit "Buckets"]
     else if Js.eqb pathname (lit "/files") then [lit "Files"]
     else []) /\
  List.length (filter (isCurrent pathname) navItems) <= 1.
Proof.
  assert (D1 : lit "/" <> lit "/buckets") by (intros H; vm_compute in H; discriminate H).
  assert (D2 : lit "/" <> lit "/files") by (intros H; vm_compute in H; discriminate H).
  assert (D3 : lit "/buckets" <> lit "/files") by (intros H; vm_compute in H; discriminate H).
  unfold isCurrent. cbn [filter navItems path map In].
  destruct (Js.eqb pathname (lit "/")) eqn:Dashboard;
    [apply JsFacts.eqb_eq in Dashboard | apply JsFacts.eqb_neq in Dashboard];
    (destruct (Js.eqb pathname (lit "/buckets")) eqn:Buckets;
     [apply JsFacts.eqb_eq in Buckets | apply JsFacts.eqb_neq in Buckets]);
    (destruct (Js.eqb pathname (lit "/files")) eqn:Files;
     [apply JsFacts.eqb_eq in Files | apply JsFacts.eqb_neq in Files]);
    try congruence;
    split; cbn; first [reflexivity | lia].
Qed.

Example current_link_on_buckets :
  map label (filter (isCurrent (lit "/buckets")) navItems) = [lit "Buckets"].
Proof. reflexivity. Qed.



End LayoutFacts.
